(** * Job intake and dispatch pipeline of the distributed scheduler

    A shallow embedding of [service/job.go]: the two stream assemblers
    ([receiveSyncJobStream], [receiveAsyncJobStream]), the transactional
    [persistence], the reconciliation read [reloadJobInfo] and the three RPC
    entry points [AsyncSubmit], [SyncSubmit] and [AsyncNotify].

    Go values are embedded as follows.
    - [int32] and [int64] are [Z]; every [int32] operation the service performs
      ([sharding++], [int32(len(..))]) is written with its wrap-around.
    - A pointer [*T] that may be nil is an [option T]; dereferencing nil panics.
    - A Go function returning [(x, err)] returns a pair whose second component
      is an [option error] ([None] is Go's [nil] error).
    - A run of a function either returns or panics: see [outcome].
    - Storage, the execution engine and the gRPC stream are collaborators of
      the service; a run of a method yields the trace of the calls it made to
      them (see [Event] and [M]). *)

From Stdlib Require Import ZArith String Lia DecimalString List.
From Stdlib Require DecimalPos DecimalZ.
Import ListNotations.

Local Open Scope string_scope.
Local Open Scope list_scope.
Local Open Scope Z_scope.

(** ** Machine integers *)

Module Int32.

Definition modulus : Z := 2 ^ 32.
Definition max_int : Z := 2 ^ 31 - 1.
Definition min_int : Z := - 2 ^ 31.

(** The value an [int32] variable holds after Go stores the mathematical
    integer [z] in it (two's complement wrap-around). *)
Definition wrap (z : Z) : Z := (z + 2 ^ 31) mod modulus - 2 ^ 31.

(** [x++] on an [int32]. *)
Definition incr (x : Z) : Z := wrap (x + 1).

(** [int32(n)] for a length [n]. *)
Definition of_len (n : nat) : Z := wrap (Z.of_nat n).

Definition in_range (z : Z) : Prop := min_int <= z <= max_int.

End Int32.

(** ** The two library calls on strings *)

(** [strings.Join(elems, sep)]. *)
Definition strings_Join (elems : list string) (sep : string) : string :=
  String.concat sep elems.

(** The verb [%d] of [fmt.Sprintf] on an integer: decimal digits, with a
    leading minus sign for a negative number. *)
Definition fmt_d (z : Z) : string := NilZero.string_of_int (Z.to_int z).

(** [fmt.Sprintf("%s-%d", s, d)]. *)
Definition Sprintf_s_d (s : string) (d : Z) : string :=
  (s ++ "-" ++ fmt_d d)%string.

(** ** Errors, panics and outcomes *)

Module errCode.
(** Modelled from the spec: package [errCode] is not part of the sources at
    hand. The service uses two of its conditions, the plugin-set-empty one
    and the job-not-found one. *)
Inductive code : Type := ErrPluginSetEmpty | ErrJobNotFound.
End errCode.

(** Go's [error] values met by the service: the sentinel [io.EOF], a condition
    of [errCode] turned into a gRPC status by [errCode.ToGrpcErr], and the
    errors of the collaborators (transport, storage, execution engine), which
    the service never inspects. *)
Inductive error : Type :=
| io_EOF
| ToGrpcErr (c : errCode.code)
| ExternalErr (msg : string).

Inductive panic : Type :=
| NilDereference            (* invalid memory address or nil pointer dereference *)
| PanicMsg (msg : string).  (* panic("...") *)

(** How a call ends: it returns a value or the goroutine panics. *)
Inductive outcome (A : Type) : Type :=
| Returned (a : A)
| Panicked (p : panic).
Arguments Returned {A} a.
Arguments Panicked {A} p.

Definition bind {A B : Type} (o : outcome A) (k : A -> outcome B) : outcome B :=
  match o with
  | Returned a => k a
  | Panicked p => Panicked p
  end.

(** [p.f] on a pointer [p]: a nil pointer dereference panics. *)
Definition deref {A : Type} (p : option A) : outcome A :=
  match p with
  | Some a => Returned a
  | None => Panicked NilDereference
  end.

Declare Scope go_scope.
Delimit Scope go_scope with go.
Notation "x <- o ;; k" := (bind o (fun x => k))
  (at level 61, o at next level, right associativity) : go_scope.
Local Open Scope go_scope.

(** ** Data model *)

(** Modelled from the spec: package [model] is not part of the sources at hand.
    The fields are the attributes of a Job in the data model (and the columns
    of the job table); the service reads and writes them by these names. *)
Module Job.
Record t : Type := mk {
  Id : Z;                       (* storage-assigned identifier *)
  Name : string;
  Type_ : string;               (* Go field [Type] *)
  PluginSet : string;           (* the pipeline, joined with commas *)
  IsAsync : Z;
  IsNotify : Z;
  Label : string;
  Source : string;
  TaskExceptionOperation : Z;
  Size : Z;                     (* int32 *)
  Status : Z;
  Result : string
}.

Definition set_Id (v : Z) (j : t) : t :=
  mk v (Name j) (Type_ j) (PluginSet j) (IsAsync j) (IsNotify j) (Label j)
     (Source j) (TaskExceptionOperation j) (Size j) (Status j) (Result j).

Definition set_IsAsync (v : Z) (j : t) : t :=
  mk (Id j) (Name j) (Type_ j) (PluginSet j) v (IsNotify j) (Label j)
     (Source j) (TaskExceptionOperation j) (Size j) (Status j) (Result j).

Definition set_IsNotify (v : Z) (j : t) : t :=
  mk (Id j) (Name j) (Type_ j) (PluginSet j) (IsAsync j) v (Label j)
     (Source j) (TaskExceptionOperation j) (Size j) (Status j) (Result j).

Definition set_Type (v : string) (j : t) : t :=
  mk (Id j) (Name j) v (PluginSet j) (IsAsync j) (IsNotify j) (Label j)
     (Source j) (TaskExceptionOperation j) (Size j) (Status j) (Result j).

Definition set_Size (v : Z) (j : t) : t :=
  mk (Id j) (Name j) (Type_ j) (PluginSet j) (IsAsync j) (IsNotify j) (Label j)
     (Source j) (TaskExceptionOperation j) v (Status j) (Result j).

Definition set_Status_Result (st : Z) (res : string) (j : t) : t :=
  mk (Id j) (Name j) (Type_ j) (PluginSet j) (IsAsync j) (IsNotify j) (Label j)
     (Source j) (TaskExceptionOperation j) (Size j) st res.
End Job.

(** Modelled from the spec: package [model] is not part of the sources at hand.
    The fields are the attributes of a Task in the data model. *)
Module Task.
Record t : Type := mk {
  Id : Z;
  JobId : Z;
  Sharding : Z;                 (* int32 *)
  Name : string;
  Input : string;
  Plugin : string;
  Status : Z;
  Output : string
}.

Definition set_Id (v : Z) (k : t) : t :=
  mk v (JobId k) (Sharding k) (Name k) (Input k) (Plugin k) (Status k) (Output k).

Definition set_JobId (v : Z) (k : t) : t :=
  mk (Id k) v (Sharding k) (Name k) (Input k) (Plugin k) (Status k) (Output k).
End Task.

Module JobInfo.
(** [dto.JobInfo]: a job (a pointer, nil until the first chunk arrives) and
    its tasks. *)
Record t : Type := mk {
  Job : option Job.t;
  TaskList : list Task.t
}.

(** [&dto.JobInfo{}]. *)
Definition empty : t := mk None [].

Definition set_Job (j : option Job.t) (i : t) : t := mk j (TaskList i).
Definition set_TaskList (l : list Task.t) (i : t) : t := mk (Job i) l.

(** Modelled from the spec: [AppendSafeTask] belongs to package [dto], which
    is not part of the sources at hand. Every chunk contributes exactly one
    task, and the task list keeps stream-arrival order: the task is added at
    the end of the list. *)
Definition AppendSafeTask (i : t) (k : Task.t) : t :=
  mk (Job i) (TaskList i ++ [k]).
End JobInfo.

(** ** Protocol messages *)

(** Modelled from the spec: package [proto/job] is not part of the sources at
    hand. A chunk carries the job name, the plugin pipeline, a label, a source,
    the task-exception policy and a data payload; a chunk of an asynchronous
    submission also carries the job type and the notify flag. *)
Module SyncSubmitRequest.
Record t : Type := mk {
  Name : string;
  PluginSet : list string;
  Label : string;
  Source : string;
  TaskExceptionOperation : Z;
  Data : string
}.
End SyncSubmitRequest.

Module AsyncSubmitRequest.
Record t : Type := mk {
  Name : string;
  Type_ : string;               (* Go field [Type] *)
  PluginSet : list string;
  IsNotify : bool;
  Label : string;
  Source : string;
  TaskExceptionOperation : Z;
  Data : string
}.
End AsyncSubmitRequest.

Module SyncSubmitResponse.
Record t : Type := mk { Id : Z; Status : Z; Result : string }.
End SyncSubmitResponse.

Module AsyncSubmitResponse.
Record t : Type := mk { Id : Z }.
End AsyncSubmitResponse.

(** ** The receiving side of a client stream

    What the successive calls of [stream.Recv()] return: a message ([inl]), or
    an error ([inr]). Once the list is used up [Recv] returns [io.EOF], the
    clean end of the stream. *)
Definition incoming (Req : Type) : Type := list (Req + error).

(** A stream that delivers the chunks [cs] and then ends cleanly. *)
Definition chunks {Req : Type} (cs : list Req) : incoming Req := map inl cs.

(** ** Stream assembly *)

(** The statements after the receive loop, shared by both assemblers:
    [jobInfo.Job.Size = int32(len(jobInfo.TaskList)); return jobInfo, nil]. *)
Definition after_loop (jobInfo : JobInfo.t) : outcome (JobInfo.t * option error) :=
  j <- deref (JobInfo.Job jobInfo) ;;
  Returned
    (JobInfo.set_Job
       (Some (Job.set_Size (Int32.of_len (length (JobInfo.TaskList jobInfo))) j))
       jobInfo,
     None).

(** The literal [&model.Job{...}] of [receiveSyncJobStream]; the fields it does
    not name hold their zero values. *)
Definition sync_Job (r : SyncSubmitRequest.t) : Job.t :=
  Job.mk 0
    (SyncSubmitRequest.Name r)
    ""
    (strings_Join (SyncSubmitRequest.PluginSet r) ",")
    0 0
    (SyncSubmitRequest.Label r)
    (SyncSubmitRequest.Source r)
    (SyncSubmitRequest.TaskExceptionOperation r)
    0 0 "".

(** The literal [&model.Job{...}] of [receiveAsyncJobStream], followed by
    [if r.IsNotify { jobInfo.Job.IsNotify = 1 }]. *)
Definition async_Job (r : AsyncSubmitRequest.t) : Job.t :=
  let job :=
    Job.mk 0
      (AsyncSubmitRequest.Name r)
      (AsyncSubmitRequest.Type_ r)
      (strings_Join (AsyncSubmitRequest.PluginSet r) ",")
      1 0
      (AsyncSubmitRequest.Label r)
      (AsyncSubmitRequest.Source r)
      (AsyncSubmitRequest.TaskExceptionOperation r)
      0 0 "" in
  if AsyncSubmitRequest.IsNotify r then Job.set_IsNotify 1 job else job.

(** The literal [&model.Task{Sharding: .., Name: .., Input: .., Plugin: ..}] of
    both assemblers. *)
Definition new_Task (sharding : Z) (jobName input plugin : string) : Task.t :=
  Task.mk 0 0 sharding (Sprintf_s_d jobName sharding) input plugin 0 "".

(** The loop of [receiveSyncJobStream]; its arguments after the stream are the
    local variables [jobInfo], [firstPlugin] and [sharding]. One iteration
    takes what [Recv] returns, that is the head of the stream. The test
    [len(r.PluginSet) == 0] and the later [r.PluginSet[0]] are one match. *)
Fixpoint receiveSyncLoop (s : incoming SyncSubmitRequest.t)
    (jobInfo : JobInfo.t) (firstPlugin : string) (sharding : Z)
  : outcome (JobInfo.t * option error) :=
  match s with
  | [] => after_loop jobInfo                          (* err == io.EOF: break *)
  | inr io_EOF :: _ => after_loop jobInfo             (* err == io.EOF: break *)
  | inr err :: _ => Returned (jobInfo, Some err)      (* err != nil *)
  | inl r :: s' =>
      match SyncSubmitRequest.PluginSet r with
      | [] => Returned (jobInfo, Some (ToGrpcErr errCode.ErrPluginSetEmpty))
      | plugin0 :: _ =>
          let '(jobInfo, firstPlugin) :=
            match JobInfo.Job jobInfo with
            | None => (JobInfo.set_Job (Some (sync_Job r)) jobInfo, plugin0)
            | Some _ => (jobInfo, firstPlugin)
            end in
          j <- deref (JobInfo.Job jobInfo) ;;
          receiveSyncLoop s'
            (JobInfo.AppendSafeTask jobInfo
               (new_Task sharding (Job.Name j) (SyncSubmitRequest.Data r) firstPlugin))
            firstPlugin (Int32.incr sharding)
      end
  end.

Definition receiveSyncJobStream (stream : incoming SyncSubmitRequest.t)
  : outcome (JobInfo.t * option error) :=
  receiveSyncLoop stream JobInfo.empty "" 0.

(** The loop of [receiveAsyncJobStream]. *)
Fixpoint receiveAsyncLoop (s : incoming AsyncSubmitRequest.t)
    (jobInfo : JobInfo.t) (firstPlugin : string) (sharding : Z)
  : outcome (JobInfo.t * option error) :=
  match s with
  | [] => after_loop jobInfo
  | inr io_EOF :: _ => after_loop jobInfo
  | inr err :: _ => Returned (jobInfo, Some err)
  | inl r :: s' =>
      match AsyncSubmitRequest.PluginSet r with
      | [] => Returned (jobInfo, Some (ToGrpcErr errCode.ErrPluginSetEmpty))
      | plugin0 :: _ =>
          let '(jobInfo, firstPlugin) :=
            match JobInfo.Job jobInfo with
            | None => (JobInfo.set_Job (Some (async_Job r)) jobInfo, plugin0)
            | Some _ => (jobInfo, firstPlugin)
            end in
          j <- deref (JobInfo.Job jobInfo) ;;
          receiveAsyncLoop s'
            (JobInfo.AppendSafeTask jobInfo
               (new_Task sharding (Job.Name j) (AsyncSubmitRequest.Data r) firstPlugin))
            firstPlugin (Int32.incr sharding)
      end
  end.

Definition receiveAsyncJobStream (stream : incoming AsyncSubmitRequest.t)
  : outcome (JobInfo.t * option error) :=
  receiveAsyncLoop stream JobInfo.empty "" 0.

(** ** Collaborators and traces

    The service works on three collaborators: the storage behind the two
    repositories, the execution engine, and the sending side of the stream.
    None of them is part of the sources at hand, and the service relies on
    nothing but their signatures, so they are parameters of the model. [DB] is
    the state of the storage. A call is assumed to return (a collaborator that
    panics or never returns is not modelled). *)

Module JobRepository.
(** [repository.JobRepository]. [Save] receives a [*model.Job] and may write
    to the pointee (it assigns the storage identifier), so it returns the job
    as the call leaves it. [Save_nil] is [Save] on a nil pointer. *)
Record t (DB : Type) : Type := mk {
  FindById : DB -> Z -> option Job.t * option error;
  Save : DB -> Job.t -> DB * Job.t * option error;
  Save_nil : DB -> DB * option error
}.
Arguments FindById {DB} _ _ _.
Arguments Save {DB} _ _ _.
Arguments Save_nil {DB} _ _.
End JobRepository.

Module TaskRepository.
(** [repository.TaskRepository]. [List] is called with one filter, the key
    ["jobId"]; its second argument here is the value given for that key.
    [BatchSave] receives a slice of [*model.Task] and may write to the tasks. *)
Record t (DB : Type) : Type := mk {
  List : DB -> Z -> list Task.t * option error;
  BatchSave : DB -> list Task.t -> DB * list Task.t * option error
}.
Arguments List {DB} _ _ _.
Arguments BatchSave {DB} _ _ _.
End TaskRepository.

Module ApplicationContext.
(** [core.ApplicationContext]: the execution engine. [StartJob] receives the
    [*dto.JobInfo] and writes status and result to it as the job runs, so it
    returns the aggregate as the call leaves it. *)
Record t (DB : Type) : Type := mk {
  StartJob : DB -> JobInfo.t -> DB * JobInfo.t * option error
}.
Arguments StartJob {DB} _ _ _.
End ApplicationContext.

(** The struct [jobService]. *)
Record jobService (DB : Type) : Type := mk_jobService {
  appCtx : ApplicationContext.t DB;
  jobRepo : JobRepository.t DB;
  taskRepo : TaskRepository.t DB
}.
Arguments appCtx {DB} _.
Arguments jobRepo {DB} _.
Arguments taskRepo {DB} _.

(** The server side of a client-streaming RPC: the messages to come, and the
    error [SendAndClose] returns ([None] when the response goes out). *)
Record ServerStream (Req : Type) : Type := mk_ServerStream {
  inbox : incoming Req;
  SendAndClose_err : option error
}.
Arguments inbox {Req} _.
Arguments SendAndClose_err {Req} _.

(** One call of the service to a collaborator, with what the call returned. *)
Inductive Event : Type :=
| TxBegin
| TxCommit
| TxRollback
| JobRepo_Save (arg : option Job.t) (err : option error)
| TaskRepo_BatchSave (arg : list Task.t) (err : option error)
| JobRepo_FindById (id : Z) (res : option Job.t) (err : option error)
| TaskRepo_List (jobId : Z) (res : list Task.t) (err : option error)
| Go_StartJob (arg : JobInfo.t)
| Engine_StartJob (arg after : JobInfo.t) (err : option error)
| Sync_SendAndClose (resp : SyncSubmitResponse.t) (err : option error)
| Async_SendAndClose (resp : AsyncSubmitResponse.t) (err : option error).

(** A method of the service: from the state of the storage to the new state,
    the trace of the calls made, and the outcome. *)
Definition M (DB A : Type) : Type := DB -> DB * list Event * outcome A.

Definition ret {DB A : Type} (a : A) : M DB A :=
  fun db => (db, [], Returned a).

Definition bindM {DB A B : Type} (m : M DB A) (k : A -> M DB B) : M DB B :=
  fun db =>
    let '(db1, evs1, o) := m db in
    match o with
    | Returned a => let '(db2, evs2, o2) := k a db1 in (db2, evs1 ++ evs2, o2)
    | Panicked p => (db1, evs1, Panicked p)
    end.

(** A computation that touches no collaborator. *)
Definition lift {DB A : Type} (o : outcome A) : M DB A :=
  fun db => (db, [], o).

Notation "x <-- m ;; k" := (bindM m (fun x => k))
  (at level 61, m at next level, right associativity) : go_scope.
Notation "' pat <-- m ;; k" := (bindM m (fun x => match x with pat => k end))
  (at level 61, pat pattern, m at next level, right associativity) : go_scope.

(** [if err != nil { return err }] followed by the rest of the method. *)
Definition return_if_err {DB : Type} (err : option error)
    (rest : M DB (option error)) : M DB (option error) :=
  match err with
  | Some e => ret (Some e)
  | None => rest
  end.

Definition db_of {DB A : Type} (r : DB * list Event * outcome A) : DB := fst (fst r).
Definition trace_of {DB A : Type} (r : DB * list Event * outcome A) : list Event :=
  snd (fst r).
Definition outcome_of {DB A : Type} (r : DB * list Event * outcome A) : outcome A :=
  snd r.

(** Modelled from the spec: [gorm.DB.Transaction] is a library call. It opens
    one transaction and runs [fc] in it; when [fc] returns no error the
    transaction commits, and when [fc] returns an error (or panics) the entire
    transaction rolls back, which leaves the storage as it was, and the error
    is handed on. A failure of the begin or of the commit itself is not
    modelled. *)
Definition Transaction {DB A : Type} (fc : M DB (A * option error))
  : M DB (A * option error) :=
  fun db =>
    let '(tx, evs, o) := fc db in
    match o with
    | Returned (_, None) => (tx, TxBegin :: evs ++ [TxCommit], o)
    | _ => (db, TxBegin :: evs ++ [TxRollback], o)
    end.

(** ** The service *)

Section Service.

Context {DB : Type}.
Variable s : jobService DB.

(** [s.jobRepo.Save(tx, job)] on the pointer [job]. *)
Definition call_Save (job : option Job.t) : M DB (option Job.t * option error) :=
  fun tx =>
    match job with
    | Some j =>
        let '(tx', j', err) := JobRepository.Save (jobRepo s) tx j in
        (tx', [JobRepo_Save job err], Returned (Some j', err))
    | None =>
        let '(tx', err) := JobRepository.Save_nil (jobRepo s) tx in
        (tx', [JobRepo_Save job err], Returned (None, err))
    end.

(** [s.taskRepo.BatchSave(tx, tasks)]. *)
Definition call_BatchSave (tasks : list Task.t) : M DB (list Task.t * option error) :=
  fun tx =>
    let '(tx', tasks', err) := TaskRepository.BatchSave (taskRepo s) tx tasks in
    (tx', [TaskRepo_BatchSave tasks err], Returned (tasks', err)).

(** [s.jobRepo.FindById(s.appCtx.Db, id)]. *)
Definition call_FindById (id : Z) : M DB (option Job.t * option error) :=
  fun db =>
    let '(job, err) := JobRepository.FindById (jobRepo s) db id in
    (db, [JobRepo_FindById id job err], Returned (job, err)).

(** [s.taskRepo.List(s.appCtx.Db, map[string]interface{}{"jobId": id})]. *)
Definition call_List (id : Z) : M DB (list Task.t * option error) :=
  fun db =>
    let '(tasks, err) := TaskRepository.List (taskRepo s) db id in
    (db, [TaskRepo_List id tasks err], Returned (tasks, err)).

(** [s.appCtx.StartJob(jobInfo)]. *)
Definition call_StartJob (jobInfo : JobInfo.t) : M DB (JobInfo.t * option error) :=
  fun db =>
    let '(db', jobInfo', err) := ApplicationContext.StartJob (appCtx s) db jobInfo in
    (db', [Engine_StartJob jobInfo jobInfo' err], Returned (jobInfo', err)).

(** The loop of [persistence]:
    [for _, item := range jobInfo.TaskList { item.JobId = jobInfo.Job.Id }]. *)
Fixpoint stamp_JobId (job : option Job.t) (items : list Task.t)
  : outcome (list Task.t) :=
  match items with
  | [] => Returned []
  | item :: items' =>
      j <- deref job ;;
      rest <- stamp_JobId job items' ;;
      Returned (Task.set_JobId (Job.Id j) item :: rest)
  end.

(** [persistence] returns an error; it also writes to the aggregate it is
    given a pointer to, so the model returns the aggregate as well. *)
Definition persistence (jobInfo : JobInfo.t) : M DB (JobInfo.t * option error) :=
  Transaction
    ('(job, err) <-- call_Save (JobInfo.Job jobInfo) ;;
     let jobInfo := JobInfo.set_Job job jobInfo in
     match err with
     | Some e => ret (jobInfo, Some e)
     | None =>
         items <-- lift (stamp_JobId (JobInfo.Job jobInfo) (JobInfo.TaskList jobInfo)) ;;
         '(items, err) <-- call_BatchSave items ;;
         ret (JobInfo.set_TaskList items jobInfo, err)
     end).

(** [reloadJobInfo]; its argument is a pointer that may be nil. *)
Definition reloadJobInfo (jobInfo : option JobInfo.t) : M DB (JobInfo.t * option error) :=
  let jobInfo :=
    match jobInfo with
    | None => JobInfo.empty
    | Some i => i
    end in
  j <-- lift (deref (JobInfo.Job jobInfo)) ;;
  '(job, err) <-- call_FindById (Job.Id j) ;;
  let jobInfo := JobInfo.set_Job job jobInfo in
  match err with
  | Some e => ret (jobInfo, Some e)
  | None =>
      match JobInfo.Job jobInfo with
      | None => ret (jobInfo, Some (ToGrpcErr errCode.ErrJobNotFound))
      | Some j' =>
          '(tasks, err) <-- call_List (Job.Id j') ;;
          ret (JobInfo.set_TaskList tasks jobInfo, err)
      end
  end.

(** When the goroutine started by [AsyncSubmit] runs, seen from the request:
    before the request reads [jobInfo.Job.Id] for its response, or after the
    request is done. *)
Inductive schedule : Type :=
| GoroutineFirst
| RequestFirst.

(** [go func() { _ = s.appCtx.StartJob(jobInfo) }()]: the goroutine shares the
    aggregate with the request and drops the error of [StartJob]. Under
    [RequestFirst] the call of the engine is not part of the request's run. *)
Definition go_StartJob (sched : schedule) (jobInfo : JobInfo.t) : M DB JobInfo.t :=
  fun db =>
    match sched with
    | GoroutineFirst =>
        let '(db', jobInfo', err) := ApplicationContext.StartJob (appCtx s) db jobInfo in
        (db', [Go_StartJob jobInfo; Engine_StartJob jobInfo jobInfo' err],
         Returned jobInfo')
    | RequestFirst => (db, [Go_StartJob jobInfo], Returned jobInfo)
    end.

(** [AsyncSubmit]. The calls of [glog.Errorf] before each [return err] have no
    effect on the run and are left out; the one of [SyncSubmit] that reads
    [jobInfo.Job.Id] is kept as that read. *)
Definition AsyncSubmit (sched : schedule) (stream : ServerStream AsyncSubmitRequest.t)
  : M DB (option error) :=
  '(jobInfo, err) <-- lift (receiveAsyncJobStream (inbox stream)) ;;
  return_if_err err (
  '(jobInfo, err) <-- persistence jobInfo ;;
  return_if_err err (
  '(jobInfo, err) <-- reloadJobInfo (Some jobInfo) ;;
  return_if_err err (
  jobInfo <-- go_StartJob sched jobInfo ;;
  j <-- lift (deref (JobInfo.Job jobInfo)) ;;
  fun db =>
    (db,
     [Async_SendAndClose (AsyncSubmitResponse.mk (Job.Id j)) (SendAndClose_err stream)],
     Returned (SendAndClose_err stream))))).

(** [AsyncNotify]: the body is [panic("not implemented")]. *)
Definition AsyncNotify {Ctx Req Resp : Type} (ctx : Ctx) (req : Req)
  : M DB (option Resp * option error) :=
  fun db => (db, [], Panicked (PanicMsg "not implemented")).

(** [SyncSubmit]. *)
Definition SyncSubmit (stream : ServerStream SyncSubmitRequest.t) : M DB (option error) :=
  '(jobInfo, err) <-- lift (receiveSyncJobStream (inbox stream)) ;;
  return_if_err err (
  j <-- lift (deref (JobInfo.Job jobInfo)) ;;
  let jobInfo := JobInfo.set_Job (Some (Job.set_IsAsync 0 j)) jobInfo in
  '(jobInfo, err) <-- persistence jobInfo ;;
  return_if_err err (
  '(jobInfo, err) <-- reloadJobInfo (Some jobInfo) ;;
  return_if_err err (
  '(jobInfo, err) <-- call_StartJob jobInfo ;;
  match err with
  | Some e =>
      (* the log statement reads [jobInfo.Job.Id] before [return err] *)
      _ <-- lift (deref (JobInfo.Job jobInfo)) ;;
      ret (Some e)
  | None =>
      j <-- lift (deref (JobInfo.Job jobInfo)) ;;
      fun db =>
        (db,
         [Sync_SendAndClose
            (SyncSubmitResponse.mk (Job.Id j) (Job.Status j) (Job.Result j))
            (SendAndClose_err stream)],
         Returned (SendAndClose_err stream))
  end))).

End Service.

(** ** An in-memory storage and engine

    Collaborators to run the service on concrete inputs: two tables, and
    switches that make a call fail. *)

Module Mem.

Record DB : Type := mk {
  jobs : list Job.t;
  tasks : list Task.t;
  Save_err : option error;
  BatchSave_err : option error;
  FindById_err : option error;
  List_err : option error
}.

Definition empty : DB := mk [] [] None None None None.

Definition Save (db : DB) (j : Job.t) : DB * Job.t * option error :=
  match Save_err db with
  | Some e => (db, j, Some e)
  | None =>
      let j' := Job.set_Id (Z.of_nat (S (length (jobs db)))) j in
      (mk (jobs db ++ [j']) (tasks db) (Save_err db) (BatchSave_err db)
          (FindById_err db) (List_err db),
       j', None)
  end.

Definition Save_nil (db : DB) : DB * option error :=
  (db, Some (ExternalErr "unsupported data")).

Definition FindById (db : DB) (id : Z) : option Job.t * option error :=
  match FindById_err db with
  | Some e => (None, Some e)
  | None => (find (fun j => Job.Id j =? id) (jobs db), None)
  end.

Fixpoint number (next : Z) (l : list Task.t) : list Task.t :=
  match l with
  | [] => []
  | k :: l' => Task.set_Id next k :: number (next + 1) l'
  end.

Definition BatchSave (db : DB) (l : list Task.t) : DB * list Task.t * option error :=
  match BatchSave_err db with
  | Some e => (db, l, Some e)
  | None =>
      let l' := number (Z.of_nat (S (length (tasks db)))) l in
      (mk (jobs db) (tasks db ++ l') (Save_err db) (BatchSave_err db)
          (FindById_err db) (List_err db),
       l', None)
  end.

Definition List (db : DB) (jobId : Z) : list Task.t * option error :=
  match List_err db with
  | Some e => ([], Some e)
  | None => (filter (fun k => Task.JobId k =? jobId) (tasks db), None)
  end.

(** An engine that marks the job done (status 2, result ["R"]) and returns
    [err]. *)
Definition StartJob (err : option error) (db : DB) (i : JobInfo.t)
  : DB * JobInfo.t * option error :=
  (db,
   JobInfo.set_Job (option_map (Job.set_Status_Result 2 "R") (JobInfo.Job i)) i,
   err).

Definition service (engine_err : option error) : jobService DB :=
  mk_jobService DB
    (ApplicationContext.mk DB (StartJob engine_err))
    (JobRepository.mk DB FindById Save Save_nil)
    (TaskRepository.mk DB List BatchSave).

(** The chunks of the spec's scenario: pipeline [p1, p2], name [job1]. *)
Definition sync_chunk (data : string) : SyncSubmitRequest.t :=
  SyncSubmitRequest.mk "job1" ["p1"; "p2"] "label" "source" 0 data.

Definition async_chunk (data : string) : AsyncSubmitRequest.t :=
  AsyncSubmitRequest.mk "job1" "kind" ["p1"; "p2"] true "label" "source" 0 data.

(** The aggregate assembled from the chunks [a] and [b] of a synchronous
    submission. *)
Definition job1 : Job.t := Job.mk 0 "job1" "" "p1,p2" 0 0 "label" "source" 0 2 0 "".

Definition tasks_ab : list Task.t :=
  [new_Task 0 "job1" "a" "p1"; new_Task 1 "job1" "b" "p1"].

(** A storage whose [BatchSave] fails. *)
Definition broken_BatchSave : DB :=
  mk [] [] None (Some (ExternalErr "disk full")) None None.

End Mem.

(** ** Views used to state the properties *)

(** The tasks the assemblers add for the payloads [datas] when the job is
    named [jobName], the first plugin is [plugin] and the counter stands at
    [sharding]. *)
Fixpoint tasks_from (jobName plugin : string) (sharding : Z) (datas : list string)
  : list Task.t :=
  match datas with
  | [] => []
  | d :: datas' =>
      new_Task sharding jobName d plugin
        :: tasks_from jobName plugin (Int32.incr sharding) datas'
  end.

(** An asynchronous chunk without its type and notify flag. *)
Definition to_sync (r : AsyncSubmitRequest.t) : SyncSubmitRequest.t :=
  SyncSubmitRequest.mk
    (AsyncSubmitRequest.Name r)
    (AsyncSubmitRequest.PluginSet r)
    (AsyncSubmitRequest.Label r)
    (AsyncSubmitRequest.Source r)
    (AsyncSubmitRequest.TaskExceptionOperation r)
    (AsyncSubmitRequest.Data r).

(** The same stream of chunks and errors, sent to [SyncSubmit]. *)
Definition sync_stream (s : incoming AsyncSubmitRequest.t)
  : incoming SyncSubmitRequest.t :=
  map (fun x => match x with inl r => inl (to_sync r) | inr e => inr e end) s.

(** A job with the three fields only the asynchronous assembler sets put back
    to their zero values. *)
Definition without_async_fields (j : Job.t) : Job.t :=
  Job.set_Type "" (Job.set_IsAsync 0 (Job.set_IsNotify 0 j)).

Definition info_without_async_fields (i : JobInfo.t) : JobInfo.t :=
  JobInfo.set_Job (option_map without_async_fields (JobInfo.Job i)) i.

Definition map_outcome {A B : Type} (f : A -> B) (o : outcome A) : outcome B :=
  match o with
  | Returned a => Returned (f a)
  | Panicked p => Panicked p
  end.

Definition result_without_async_fields (r : JobInfo.t * option error)
  : JobInfo.t * option error :=
  (info_without_async_fields (fst r), snd r).

(** Two chunks that give the assemblers the same shard: the same payload, and
    plugin pipelines that are both empty or both non-empty. *)
Definition same_shard_sync (r r' : SyncSubmitRequest.t) : Prop :=
  SyncSubmitRequest.Data r = SyncSubmitRequest.Data r'
  /\ (SyncSubmitRequest.PluginSet r = [] <-> SyncSubmitRequest.PluginSet r' = []).

Definition same_shard_async (r r' : AsyncSubmitRequest.t) : Prop :=
  AsyncSubmitRequest.Data r = AsyncSubmitRequest.Data r'
  /\ (AsyncSubmitRequest.PluginSet r = [] <-> AsyncSubmitRequest.PluginSet r' = []).

(** What the spec promises of an assembled aggregate, for a job named
    [jobName] with the plugin pipeline [pipeline] and the chunk payloads
    [datas]: one task per payload, in order; task [n] has shard index [n], the
    name [<jobName>-<n>], the [n]-th payload as input and the first plugin of
    the pipeline; and the job's size is the number of payloads. *)
Definition well_assembled (jobName : string) (pipeline datas : list string)
    (i : JobInfo.t) : Prop :=
  length (JobInfo.TaskList i) = length datas
  /\ (exists job, JobInfo.Job i = Some job /\ Job.Size job = Z.of_nat (length datas))
  /\ forall n d,
       nth_error datas n = Some d ->
       exists k,
         nth_error (JobInfo.TaskList i) n = Some k
         /\ Task.Sharding k = Z.of_nat n
         /\ Task.Name k = Sprintf_s_d jobName (Z.of_nat n)
         /\ Task.Input k = d
         /\ hd_error pipeline = Some (Task.Plugin k).

(** The responses a trace sent. *)
Definition sync_responses (evs : list Event) : list SyncSubmitResponse.t :=
  flat_map (fun e => match e with Sync_SendAndClose r _ => [r] | _ => [] end) evs.

Definition async_responses (evs : list Event) : list AsyncSubmitResponse.t :=
  flat_map (fun e => match e with Async_SendAndClose r _ => [r] | _ => [] end) evs.

(** The storage writes of a trace. *)
Definition is_write (e : Event) : bool :=
  match e with
  | JobRepo_Save _ _ | TaskRepo_BatchSave _ _ => true
  | _ => false
  end.

(** The calls to the storage: transactions, writes and reads. *)
Definition is_storage (e : Event) : bool :=
  match e with
  | TxBegin | TxCommit | TxRollback
  | JobRepo_Save _ _ | TaskRepo_BatchSave _ _
  | JobRepo_FindById _ _ _ | TaskRepo_List _ _ _ => true
  | _ => false
  end.

Definition storage_only (evs : list Event) : Prop :=
  Forall (fun e => is_storage e = true) evs.

(** A long stream: [2^31] chunks. *)
Definition two_pow_31 : nat := Z.to_nat (2 ^ 31).

(** ** Views used to state the further properties *)

(** What makes the receive loop return: an error of [Recv] (the end of the
    stream or a transport error), or a chunk with an empty pipeline. *)
Definition stops_sync (x : SyncSubmitRequest.t + error) : Prop :=
  match x with
  | inl r => SyncSubmitRequest.PluginSet r = []
  | inr _ => True
  end.

Definition stops_async (x : AsyncSubmitRequest.t + error) : Prop :=
  match x with
  | inl r => AsyncSubmitRequest.PluginSet r = []
  | inr _ => True
  end.

(** The tasks and the size of an assembled aggregate, with the counters as
    [int32] hold them: the inputs are the payloads in order; task [n] has the
    shard index and the name suffix [n] wrapped to [int32], the first plugin
    of the pipeline, and no identifier yet; the size is the number of payloads
    wrapped to [int32]. *)
Definition wrapped_assembly (jobName : string) (pipeline datas : list string)
    (i : JobInfo.t) : Prop :=
  map Task.Input (JobInfo.TaskList i) = datas
  /\ (exists job,
        JobInfo.Job i = Some job
        /\ Job.Size job = Int32.wrap (Z.of_nat (length datas)))
  /\ forall n k,
       nth_error (JobInfo.TaskList i) n = Some k ->
       Task.Sharding k = Int32.wrap (Z.of_nat n)
       /\ Task.Name k = Sprintf_s_d jobName (Int32.wrap (Z.of_nat n))
       /\ hd_error pipeline = Some (Task.Plugin k)
       /\ Task.Id k = 0
       /\ Task.JobId k = 0.

(** The job record of an assembled aggregate, given the envelope it was
    initialised from: the pipeline joined with commas, the size the [int32]
    of the number of tasks, and identifier, status and result not yet set. *)
Definition assembled_from (name : string) (pipeline : list string)
    (label source : string) (policy : Z) (i : JobInfo.t) : Prop :=
  JobInfo.TaskList i <> []
  /\ exists job,
       JobInfo.Job i = Some job
       /\ Job.Name job = name
       /\ Job.PluginSet job = strings_Join pipeline ","
       /\ Job.Label job = label
       /\ Job.Source job = source
       /\ Job.TaskExceptionOperation job = policy
       /\ Job.Size job = Int32.of_len (length (JobInfo.TaskList i))
       /\ Job.Id job = 0
       /\ Job.Status job = 0
       /\ Job.Result job = "".

(** The calls of a synchronous submission that returns no error, in order:
    the transaction with its two writes, the two reads of the reload (by the
    identifier [Save] assigned), the engine, and the response. *)
Definition sync_success_path {DB : Type} (s : jobService DB)
    (stream : ServerStream SyncSubmitRequest.t) (db : DB) : Prop :=
  exists i0 j0 tx1 j1 tx2 tasks2 j2 tasks3 after j3,
    receiveSyncJobStream (inbox stream) = Returned (i0, None)
    /\ JobInfo.Job i0 = Some j0
    /\ JobRepository.Save (jobRepo s) db (Job.set_IsAsync 0 j0) = (tx1, j1, None)
    /\ TaskRepository.BatchSave (taskRepo s) tx1
         (map (Task.set_JobId (Job.Id j1)) (JobInfo.TaskList i0))
       = (tx2, tasks2, None)
    /\ JobInfo.Job after = Some j3
    /\ SendAndClose_err stream = None
    /\ trace_of (SyncSubmit s stream db)
       = [TxBegin;
          JobRepo_Save (Some (Job.set_IsAsync 0 j0)) None;
          TaskRepo_BatchSave
            (map (Task.set_JobId (Job.Id j1)) (JobInfo.TaskList i0)) None;
          TxCommit;
          JobRepo_FindById (Job.Id j1) (Some j2) None;
          TaskRepo_List (Job.Id j2) tasks3 None;
          Engine_StartJob (JobInfo.mk (Some j2) tasks3) after None;
          Sync_SendAndClose
            (SyncSubmitResponse.mk (Job.Id j3) (Job.Status j3) (Job.Result j3))
            None].

(** The calls of an asynchronous submission that returns no error, in order:
    the transaction, the reload, the [go] statement, the call of the engine
    when the goroutine runs first, and the response. *)
Definition async_success_path {DB : Type} (s : jobService DB) (sched : schedule)
    (stream : ServerStream AsyncSubmitRequest.t) (db : DB) : Prop :=
  exists i0 j0 tx1 j1 tx2 tasks2 j2 tasks3 started j3,
    receiveAsyncJobStream (inbox stream) = Returned (i0, None)
    /\ JobInfo.Job i0 = Some j0
    /\ Job.IsAsync j0 = 1
    /\ JobRepository.Save (jobRepo s) db j0 = (tx1, j1, None)
    /\ TaskRepository.BatchSave (taskRepo s) tx1
         (map (Task.set_JobId (Job.Id j1)) (JobInfo.TaskList i0))
       = (tx2, tasks2, None)
    /\ SendAndClose_err stream = None
    /\ match sched with
       | RequestFirst => started = [] /\ j3 = j2
       | GoroutineFirst =>
           exists after err,
             started = [Engine_StartJob (JobInfo.mk (Some j2) tasks3) after err]
             /\ JobInfo.Job after = Some j3
       end
    /\ trace_of (AsyncSubmit s sched stream db)
       = [TxBegin;
          JobRepo_Save (Some j0) None;
          TaskRepo_BatchSave
            (map (Task.set_JobId (Job.Id j1)) (JobInfo.TaskList i0)) None;
          TxCommit;
          JobRepo_FindById (Job.Id j1) (Some j2) None;
          TaskRepo_List (Job.Id j2) tasks3 None;
          Go_StartJob (JobInfo.mk (Some j2) tasks3)]
         ++ started
         ++ [Async_SendAndClose (AsyncSubmitResponse.mk (Job.Id j3)) None].

(** Counting the calls of a kind in a trace. *)
Definition is_begin (e : Event) : bool :=
  match e with TxBegin => true | _ => false end.

Definition is_Save (e : Event) : bool :=
  match e with JobRepo_Save _ _ => true | _ => false end.

Definition is_BatchSave (e : Event) : bool :=
  match e with TaskRepo_BatchSave _ _ => true | _ => false end.

Definition is_engine (e : Event) : bool :=
  match e with Engine_StartJob _ _ _ => true | _ => false end.

Definition is_response (e : Event) : bool :=
  match e with Sync_SendAndClose _ _ | Async_SendAndClose _ _ => true | _ => false end.

Definition count_calls (p : Event -> bool) (evs : list Event) : nat :=
  length (filter p evs).

Definition at_most_once_each (evs : list Event) : Prop :=
  (count_calls is_begin evs <= 1)%nat
  /\ (count_calls is_Save evs <= 1)%nat
  /\ (count_calls is_BatchSave evs <= 1)%nat
  /\ (count_calls is_engine evs <= 1)%nat
  /\ (count_calls is_response evs <= 1)%nat.

(** The trace starts with a committed transaction and a reload that found the
    job, and [arg] is the aggregate that reload read. *)
Definition started_on_committed_job (arg : JobInfo.t) (evs : list Event) : Prop :=
  exists saved tasks id j2 tasks3 rest,
    evs
    = [TxBegin; JobRepo_Save saved None; TaskRepo_BatchSave tasks None; TxCommit;
       JobRepo_FindById id (Some j2) None; TaskRepo_List (Job.Id j2) tasks3 None]
      ++ rest
    /\ arg = JobInfo.mk (Some j2) tasks3.

(** The stream ends before its first chunk: the first [Recv] returns
    [io.EOF]. *)
Definition ends_before_first_chunk {Req : Type} (s : incoming Req) : Prop :=
  hd_error s = None \/ hd_error s = Some (inr io_EOF).

(** The error a call returned, for the calls that return one. *)
Definition error_of (ev : Event) : option error :=
  match ev with
  | JobRepo_Save _ err
  | TaskRepo_BatchSave _ err
  | JobRepo_FindById _ _ err
  | TaskRepo_List _ _ err
  | Engine_StartJob _ _ err
  | Sync_SendAndClose _ err
  | Async_SendAndClose _ err => err
  | _ => None
  end.

(** Where an error a submission returns comes from: the assembly, before any
    call; a lookup that found no job; or a call that returned it. *)
Definition error_origin (assembled : outcome (JobInfo.t * option error))
    (evs : list Event) (e : error) : Prop :=
  ((exists i, assembled = Returned (i, Some e)) /\ evs = [])
  \/ (e = ToGrpcErr errCode.ErrJobNotFound
      /\ exists id, In (JobRepo_FindById id None None) evs)
  \/ In (Some e) (map error_of evs).

(** The [go] statements of a trace. *)
Definition is_go (e : Event) : bool :=
  match e with Go_StartJob _ => true | _ => false end.

(** Nothing was started and nothing was answered. *)
Definition nothing_started (evs : list Event) : Prop :=
  count_calls is_go evs = 0%nat
  /\ count_calls is_engine evs = 0%nat
  /\ count_calls is_response evs = 0%nat.

(** Two submissions and a storage whose [FindById] fails, for the in-memory
    runs. *)
Definition sample_sync_stream : ServerStream SyncSubmitRequest.t :=
  mk_ServerStream _ (chunks [Mem.sync_chunk "a"; Mem.sync_chunk "b"]) None.

Definition sample_async_stream : ServerStream AsyncSubmitRequest.t :=
  mk_ServerStream _ (chunks [Mem.async_chunk "a"; Mem.async_chunk "b"]) None.

Definition broken_FindById : Mem.DB :=
  Mem.mk [] [] None None (Some (ExternalErr "connection lost")) None.

(** * Properties *)

(** ** Machine integers *)

Lemma wrap_in_range z : Int32.in_range (Int32.wrap z).
Proof.
  unfold Int32.in_range, Int32.wrap, Int32.min_int, Int32.max_int, Int32.modulus.
  pose proof (Z.mod_pos_bound (z + 2 ^ 31) (2 ^ 32) ltac:(lia)). lia.
Qed.

Lemma wrap_small z : Int32.in_range z -> Int32.wrap z = z.
Proof.
  unfold Int32.in_range, Int32.wrap, Int32.min_int, Int32.max_int, Int32.modulus.
  intros H. rewrite Z.mod_small by lia. lia.
Qed.

Lemma wrap_wrap z : Int32.wrap (Int32.wrap z) = Int32.wrap z.
Proof. apply wrap_small, wrap_in_range. Qed.

(** Wrapping before or after an addition gives the same [int32]. *)
Lemma wrap_add_wrap x y : Int32.wrap (Int32.wrap x + y) = Int32.wrap (x + y).
Proof.
  unfold Int32.wrap, Int32.modulus.
  replace ((x + 2 ^ 31) mod 2 ^ 32 - 2 ^ 31 + y + 2 ^ 31)
    with ((x + 2 ^ 31) mod 2 ^ 32 + y) by lia.
  rewrite Zplus_mod_idemp_l. f_equal. f_equal. lia.
Qed.

(** ** The tasks of a run of chunks *)

Lemma tasks_from_length name plugin datas :
  forall sh, length (tasks_from name plugin sh datas) = length datas.
Proof. induction datas as [|d ds IH]; intros sh; simpl; [|rewrite IH]; reflexivity. Qed.

(** The [i]-th task carries the [i]-th payload and the counter after [i]
    increments. *)
Lemma tasks_from_nth name plugin datas :
  forall sh i d,
    Int32.wrap sh = sh ->
    nth_error datas i = Some d ->
    nth_error (tasks_from name plugin sh datas) i
    = Some (new_Task (Int32.wrap (sh + Z.of_nat i)) name d plugin).
Proof.
  induction datas as [|d0 ds IH]; intros sh i d Hsh Hi.
  - destruct i; discriminate.
  - destruct i as [|i]; simpl in *.
    + inversion Hi; subst. rewrite Z.add_0_r, Hsh. reflexivity.
    + rewrite (IH (Int32.incr sh) i d); [| apply wrap_wrap | exact Hi].
      unfold Int32.incr. rewrite wrap_add_wrap.
      do 2 f_equal. f_equal. lia.
Qed.

(** ** The loops on a run of chunks *)

Ltac loop_step IH :=
  match goal with
  | H : Forall _ (_ :: _) |- _ => inversion H as [|? ? Hhd Htl]; subst; clear H
  end;
  simpl;
  match goal with
  | |- context [match ?l with [] => _ | _ :: _ => _ end] =>
      destruct l as [|? ?] eqn:?; [congruence|]
  end;
  unfold JobInfo.AppendSafeTask; simpl; rewrite IH by assumption;
  rewrite length_app, <- app_assoc; simpl;
  rewrite <- Nat.add_assoc; reflexivity.

(** Once the job is set, a run of chunks with non-empty pipelines adds one
    task per chunk and ends by setting the size. *)
Lemma receiveSyncLoop_chunks cs :
  forall j acc fp sh,
    Forall (fun r => SyncSubmitRequest.PluginSet r <> []) cs ->
    receiveSyncLoop (chunks cs) (JobInfo.mk (Some j) acc) fp sh
    = Returned
        (JobInfo.mk
           (Some (Job.set_Size (Int32.of_len (length acc + length cs)) j))
           (acc ++ tasks_from (Job.Name j) fp sh (map SyncSubmitRequest.Data cs)),
         None).
Proof.
  induction cs as [|r cs IH]; intros j acc fp sh Hall.
  - simpl. unfold after_loop, JobInfo.set_Job. simpl.
    rewrite Nat.add_0_r, app_nil_r. reflexivity.
  - loop_step IH.
Qed.

Lemma receiveAsyncLoop_chunks cs :
  forall j acc fp sh,
    Forall (fun r => AsyncSubmitRequest.PluginSet r <> []) cs ->
    receiveAsyncLoop (chunks cs) (JobInfo.mk (Some j) acc) fp sh
    = Returned
        (JobInfo.mk
           (Some (Job.set_Size (Int32.of_len (length acc + length cs)) j))
           (acc ++ tasks_from (Job.Name j) fp sh (map AsyncSubmitRequest.Data cs)),
         None).
Proof.
  induction cs as [|r cs IH]; intros j acc fp sh Hall.
  - simpl. unfold after_loop, JobInfo.set_Job. simpl.
    rewrite Nat.add_0_r, app_nil_r. reflexivity.
  - loop_step IH.
Qed.

(** The whole assembler on a non-empty run of chunks with non-empty
    pipelines. *)
Lemma receiveSyncJobStream_chunks c cs p ps :
  SyncSubmitRequest.PluginSet c = p :: ps ->
  Forall (fun r => SyncSubmitRequest.PluginSet r <> []) cs ->
  receiveSyncJobStream (chunks (c :: cs))
  = Returned
      (JobInfo.mk
         (Some (Job.set_Size (Int32.of_len (S (length cs))) (sync_Job c)))
         (tasks_from (SyncSubmitRequest.Name c) p 0
            (map SyncSubmitRequest.Data (c :: cs))),
       None).
Proof.
  intros Hp Hall. unfold receiveSyncJobStream. simpl. rewrite Hp. simpl.
  unfold JobInfo.AppendSafeTask. simpl.
  rewrite receiveSyncLoop_chunks by assumption. reflexivity.
Qed.

Lemma receiveAsyncJobStream_chunks c cs p ps :
  AsyncSubmitRequest.PluginSet c = p :: ps ->
  Forall (fun r => AsyncSubmitRequest.PluginSet r <> []) cs ->
  receiveAsyncJobStream (chunks (c :: cs))
  = Returned
      (JobInfo.mk
         (Some (Job.set_Size (Int32.of_len (S (length cs))) (async_Job c)))
         (tasks_from (AsyncSubmitRequest.Name c) p 0
            (map AsyncSubmitRequest.Data (c :: cs))),
       None).
Proof.
  intros Hp Hall. unfold receiveAsyncJobStream. simpl. rewrite Hp. simpl.
  unfold JobInfo.AppendSafeTask. simpl.
  rewrite receiveAsyncLoop_chunks by assumption. simpl.
  replace (Job.Name (async_Job c)) with (AsyncSubmitRequest.Name c)
    by (unfold async_Job; destruct (AsyncSubmitRequest.IsNotify c); reflexivity).
  reflexivity.
Qed.

(** Below [2^31] payloads no counter wraps, and the tasks and the size are the
    ones the spec promises. *)
Lemma tasks_from_well_assembled name p ps datas j :
  Z.of_nat (length datas) <= Int32.max_int ->
  well_assembled name (p :: ps) datas
    (JobInfo.mk (Some (Job.set_Size (Int32.of_len (length datas)) j))
       (tasks_from name p 0 datas)).
Proof.
  intros Hn. unfold well_assembled. simpl. split; [|split].
  - apply tasks_from_length.
  - eexists. split; [reflexivity|]. simpl. unfold Int32.of_len.
    apply wrap_small. unfold Int32.in_range, Int32.min_int, Int32.max_int in *. lia.
  - intros n d Hd.
    assert (Hlt : (n < length datas)%nat) by (apply nth_error_Some; congruence).
    assert (Hw : Int32.wrap (0 + Z.of_nat n) = Z.of_nat n).
    { apply wrap_small. unfold Int32.in_range, Int32.min_int, Int32.max_int in *. lia. }
    eexists. split.
    + apply tasks_from_nth; [reflexivity | exact Hd].
    + rewrite Hw. simpl. repeat split; reflexivity.
Qed.

(** ** C1: what a run of chunks is assembled into *)

(** C1 (as amended). For every non-empty chunk sequence of length
    [n <= 2^31 - 1] in which every chunk has a non-empty plugin pipeline, both
    assemblers return without error an aggregate of exactly [n] tasks; task
    [i] has shard index [i], the name [<jobName>-<i>] with the name of the
    first chunk, chunk [i]'s payload as input and the first plugin of the
    first chunk's pipeline; and the job's size is [n]. *)
Theorem assembled_tasks :
  (forall (cs : list SyncSubmitRequest.t) (first : SyncSubmitRequest.t),
      hd_error cs = Some first ->
      Forall (fun r => SyncSubmitRequest.PluginSet r <> []) cs ->
      Z.of_nat (length cs) <= Int32.max_int ->
      exists i,
        receiveSyncJobStream (chunks cs) = Returned (i, None)
        /\ well_assembled (SyncSubmitRequest.Name first)
             (SyncSubmitRequest.PluginSet first)
             (map SyncSubmitRequest.Data cs) i)
  /\ (forall (cs : list AsyncSubmitRequest.t) (first : AsyncSubmitRequest.t),
      hd_error cs = Some first ->
      Forall (fun r => AsyncSubmitRequest.PluginSet r <> []) cs ->
      Z.of_nat (length cs) <= Int32.max_int ->
      exists i,
        receiveAsyncJobStream (chunks cs) = Returned (i, None)
        /\ well_assembled (AsyncSubmitRequest.Name first)
             (AsyncSubmitRequest.PluginSet first)
             (map AsyncSubmitRequest.Data cs) i).
Proof.
  split; intros [|c cs] first Hhd Hall Hn; try discriminate;
    injection Hhd as <-; inversion Hall as [|? ? Hc Hcs]; subst.
  - destruct (SyncSubmitRequest.PluginSet c) as [|p ps] eqn:Hp; [congruence|].
    eexists. split.
    + apply (receiveSyncJobStream_chunks c cs p ps Hp Hcs).
    + pose proof (tasks_from_well_assembled (SyncSubmitRequest.Name c) p ps
                    (map SyncSubmitRequest.Data (c :: cs)) (sync_Job c)) as H.
      rewrite length_map in H. apply H. exact Hn.
  - destruct (AsyncSubmitRequest.PluginSet c) as [|p ps] eqn:Hp; [congruence|].
    eexists. split.
    + apply (receiveAsyncJobStream_chunks c cs p ps Hp Hcs).
    + pose proof (tasks_from_well_assembled (AsyncSubmitRequest.Name c) p ps
                    (map AsyncSubmitRequest.Data (c :: cs)) (async_Job c)) as H.
      rewrite length_map in H. apply H. exact Hn.
Qed.

(** The spec's scenario: three chunks named [job1] with the pipeline
    [p1, p2] and the payloads [a], [b], [c]. *)
Lemma assembled_tasks_witness :
  (exists i,
      receiveSyncJobStream
        (chunks [Mem.sync_chunk "a"; Mem.sync_chunk "b"; Mem.sync_chunk "c"])
      = Returned (i, None)
      /\ well_assembled "job1" ["p1"; "p2"] ["a"; "b"; "c"] i)
  /\ (exists i,
      receiveAsyncJobStream
        (chunks [Mem.async_chunk "a"; Mem.async_chunk "b"; Mem.async_chunk "c"])
      = Returned (i, None)
      /\ well_assembled "job1" ["p1"; "p2"] ["a"; "b"; "c"] i).
Proof.
  split.
  - apply (proj1 assembled_tasks
             [Mem.sync_chunk "a"; Mem.sync_chunk "b"; Mem.sync_chunk "c"]
             (Mem.sync_chunk "a")).
    + reflexivity.
    + repeat constructor; discriminate.
    + vm_compute. discriminate.
  - apply (proj2 assembled_tasks
             [Mem.async_chunk "a"; Mem.async_chunk "b"; Mem.async_chunk "c"]
             (Mem.async_chunk "a")).
    + reflexivity.
    + repeat constructor; discriminate.
    + vm_compute. discriminate.
Defined.

Example scenario_job1 :
  receiveSyncJobStream
    (chunks [Mem.sync_chunk "a"; Mem.sync_chunk "b"; Mem.sync_chunk "c"])
  = Returned
      (JobInfo.mk
         (Some (Job.mk 0 "job1" "" "p1,p2" 0 0 "label" "source" 0 3 0 ""))
         [Task.mk 0 0 0 "job1-0" "a" "p1" 0 "";
          Task.mk 0 0 1 "job1-1" "b" "p1" 0 "";
          Task.mk 0 0 2 "job1-2" "c" "p1" 0 ""],
       None).
Proof. reflexivity. Qed.

Lemma two_pow_31_succ : two_pow_31 = S (Z.to_nat (2 ^ 31 - 1)).
Proof.
  unfold two_pow_31. rewrite <- Z2Nat.inj_succ by lia. f_equal.
Qed.

Lemma two_pow_31_of_nat : Z.of_nat two_pow_31 = 2 ^ 31.
Proof. unfold two_pow_31. apply Z2Nat.id. lia. Qed.

(** C1 (as stated) fails on the code. A chunk with an empty pipeline stops the
    assembler: a sequence of one such chunk gives no task and an error. And the
    counters are [int32]: on a sequence of [2^31] chunks the job's size wraps
    to [-2^31]. *)
Lemma assembled_tasks_counterexample :
  (receiveSyncJobStream (chunks [SyncSubmitRequest.mk "job1" [] "" "" 0 "a"])
   = Returned (JobInfo.mk None [], Some (ToGrpcErr errCode.ErrPluginSetEmpty)))
  /\ (exists job tasks,
        receiveSyncJobStream (chunks (repeat (Mem.sync_chunk "a") two_pow_31))
        = Returned (JobInfo.mk (Some job) tasks, None)
        /\ Z.of_nat (length (repeat (Mem.sync_chunk "a") two_pow_31)) = 2147483648
        /\ Job.Size job = -2147483648).
Proof.
  split; [reflexivity|].
  rewrite repeat_length, two_pow_31_of_nat.
  rewrite two_pow_31_succ. cbn [repeat].
  do 2 eexists. split; [|split].
  - apply (receiveSyncJobStream_chunks (Mem.sync_chunk "a") _ "p1" ["p2"]).
    + reflexivity.
    + apply Forall_forall. intros r Hr. apply repeat_spec in Hr. subst r.
      discriminate.
  - reflexivity.
  - cbn [Job.Size Job.set_Size]. rewrite repeat_length.
    unfold Int32.of_len. rewrite <- two_pow_31_succ, two_pow_31_of_nat.
    reflexivity.
Qed.

(** ** C9: the empty stream *)

(** C9 (the code at the failing input). On a stream that ends before any
    chunk, the statement [jobInfo.Job.Size = ...] after the loop dereferences
    the nil [jobInfo.Job]: both assemblers panic, and so do both submissions,
    before any call to a collaborator. *)
Theorem empty_stream_panics :
  receiveSyncJobStream (chunks []) = Panicked NilDereference
  /\ receiveAsyncJobStream (chunks []) = Panicked NilDereference
  /\ (forall (DB : Type) (s : jobService DB) (send_err : option error) (db : DB),
      SyncSubmit s (mk_ServerStream _ (chunks []) send_err) db
      = (db, [], Panicked NilDereference))
  /\ (forall (DB : Type) (s : jobService DB) (sched : schedule)
             (send_err : option error) (db : DB),
      AsyncSubmit s sched (mk_ServerStream _ (chunks []) send_err) db
      = (db, [], Panicked NilDereference)).
Proof. repeat split. Qed.

(** ** C3: a chunk with an empty pipeline *)

Ltac empty_pipeline_step IH :=
  let Hhd := fresh "Hhd" in
  let Htl := fresh "Htl" in
  match goal with
  | H : Exists _ (_ :: _) |- _ => inversion H as [? ? Hhd|? ? Htl]; subst; clear H
  end;
  simpl;
  [ rewrite Hhd; eexists; reflexivity
  | match goal with
    | |- context [match ?l with [] => _ | _ :: _ => _ end] =>
        destruct l as [|? ?]; [eexists; reflexivity|]
    end;
    match goal with
    | |- context [JobInfo.Job ?i] => destruct (JobInfo.Job i) eqn:?
    end;
    simpl; try match goal with H : JobInfo.Job _ = _ |- _ => rewrite H end;
    simpl; apply IH; exact Htl ].

(** From any state of the loop, a run of chunks one of which has an empty
    pipeline ends with the plugin-set-empty error. *)
Lemma receiveSyncLoop_empty_pipeline cs :
  forall i fp sh,
    Exists (fun r => SyncSubmitRequest.PluginSet r = []) cs ->
    exists i',
      receiveSyncLoop (chunks cs) i fp sh
      = Returned (i', Some (ToGrpcErr errCode.ErrPluginSetEmpty)).
Proof.
  induction cs as [|r cs IH]; intros i fp sh Hex.
  - inversion Hex.
  - empty_pipeline_step IH.
Qed.

Lemma receiveAsyncLoop_empty_pipeline cs :
  forall i fp sh,
    Exists (fun r => AsyncSubmitRequest.PluginSet r = []) cs ->
    exists i',
      receiveAsyncLoop (chunks cs) i fp sh
      = Returned (i', Some (ToGrpcErr errCode.ErrPluginSetEmpty)).
Proof.
  induction cs as [|r cs IH]; intros i fp sh Hex.
  - inversion Hex.
  - empty_pipeline_step IH.
Qed.

(** C3. For every chunk sequence with at least one chunk whose plugin pipeline
    is empty, stream assembly fails with the plugin-set-empty condition, and
    [SyncSubmit] and [AsyncSubmit] return that error with an empty trace: the
    submission makes no call to a repository (no [Save], no [BatchSave]), to
    the engine or to [SendAndClose], and the storage is left as it was. *)
Theorem empty_pipeline_aborts :
  (forall (DB : Type) (s : jobService DB) (cs : list SyncSubmitRequest.t)
          (send_err : option error) (db : DB),
      Exists (fun r => SyncSubmitRequest.PluginSet r = []) cs ->
      (exists i,
          receiveSyncJobStream (chunks cs)
          = Returned (i, Some (ToGrpcErr errCode.ErrPluginSetEmpty)))
      /\ SyncSubmit s (mk_ServerStream _ (chunks cs) send_err) db
         = (db, [], Returned (Some (ToGrpcErr errCode.ErrPluginSetEmpty))))
  /\ (forall (DB : Type) (s : jobService DB) (sched : schedule)
          (cs : list AsyncSubmitRequest.t) (send_err : option error) (db : DB),
      Exists (fun r => AsyncSubmitRequest.PluginSet r = []) cs ->
      (exists i,
          receiveAsyncJobStream (chunks cs)
          = Returned (i, Some (ToGrpcErr errCode.ErrPluginSetEmpty)))
      /\ AsyncSubmit s sched (mk_ServerStream _ (chunks cs) send_err) db
         = (db, [], Returned (Some (ToGrpcErr errCode.ErrPluginSetEmpty)))).
Proof.
  split.
  - intros DB s cs send_err db Hex.
    destruct (receiveSyncLoop_empty_pipeline cs JobInfo.empty "" 0 Hex) as [i Hi].
    split; [exists i; exact Hi|].
    unfold SyncSubmit, bindM, lift. simpl. unfold receiveSyncJobStream.
    rewrite Hi. reflexivity.
  - intros DB s sched cs send_err db Hex.
    destruct (receiveAsyncLoop_empty_pipeline cs JobInfo.empty "" 0 Hex) as [i Hi].
    split; [exists i; exact Hi|].
    unfold AsyncSubmit, bindM, lift. simpl. unfold receiveAsyncJobStream.
    rewrite Hi. reflexivity.
Qed.

(** Two chunks, the second without a pipeline, on the in-memory storage. *)
Lemma empty_pipeline_aborts_witness :
  SyncSubmit (Mem.service None)
    (mk_ServerStream _
       (chunks [Mem.sync_chunk "a"; SyncSubmitRequest.mk "job1" [] "" "" 0 "b"]) None)
    Mem.empty
  = (Mem.empty, [], Returned (Some (ToGrpcErr errCode.ErrPluginSetEmpty)))
  /\ AsyncSubmit (Mem.service None) GoroutineFirst
       (mk_ServerStream _
          (chunks [Mem.async_chunk "a";
                   AsyncSubmitRequest.mk "job1" "" [] false "" "" 0 "b"]) None)
       Mem.empty
     = (Mem.empty, [], Returned (Some (ToGrpcErr errCode.ErrPluginSetEmpty))).
Proof.
  split.
  - apply (proj1 empty_pipeline_aborts Mem.DB (Mem.service None)
             [Mem.sync_chunk "a"; SyncSubmitRequest.mk "job1" [] "" "" 0 "b"]).
    apply Exists_cons_tl, Exists_cons_hd. reflexivity.
  - apply (proj2 empty_pipeline_aborts Mem.DB (Mem.service None) GoroutineFirst
             [Mem.async_chunk "a";
              AsyncSubmitRequest.mk "job1" "" [] false "" "" 0 "b"]).
    apply Exists_cons_tl, Exists_cons_hd. reflexivity.
Defined.

(** ** C7: the envelope of the later chunks *)

Ltac same_shards_step IH :=
  let Hdata := fresh "Hdata" in
  let Hto := fresh "Hto" in
  let Hfrom := fresh "Hfrom" in
  match goal with
  | H : _ /\ (_ <-> _) |- _ => destruct H as [Hdata [Hto Hfrom]]
  end;
  simpl; rewrite Hdata;
  match goal with
  | |- context [match ?l with [] => _ | _ :: _ => _ end] =>
      destruct l as [|? ?]
  end;
  match goal with
  | |- context [match ?l with [] => _ | _ :: _ => _ end] =>
      destruct l as [|? ?]
  end;
  try reflexivity;
  try (specialize (Hto eq_refl); discriminate);
  try (specialize (Hfrom eq_refl); discriminate);
  simpl; apply IH.

(** Once the job is set, the loop reads nothing of a chunk but its payload and
    whether its pipeline is empty. *)
Lemma receiveSyncLoop_same_shards cs cs' :
  Forall2 same_shard_sync cs cs' ->
  forall j acc fp sh,
    receiveSyncLoop (chunks cs) (JobInfo.mk (Some j) acc) fp sh
    = receiveSyncLoop (chunks cs') (JobInfo.mk (Some j) acc) fp sh.
Proof.
  induction 1 as [|r r' cs cs' Hr _ IH]; intros j acc fp sh; [reflexivity|].
  unfold same_shard_sync in Hr. same_shards_step IH.
Qed.

Lemma receiveAsyncLoop_same_shards cs cs' :
  Forall2 same_shard_async cs cs' ->
  forall j acc fp sh,
    receiveAsyncLoop (chunks cs) (JobInfo.mk (Some j) acc) fp sh
    = receiveAsyncLoop (chunks cs') (JobInfo.mk (Some j) acc) fp sh.
Proof.
  induction 1 as [|r r' cs cs' Hr _ IH]; intros j acc fp sh; [reflexivity|].
  unfold same_shard_async in Hr. same_shards_step IH.
Qed.

(** C7 (as amended). After the first chunk, the assemblers read nothing of a
    chunk's envelope except whether its plugin pipeline is empty: two chunk
    sequences with the same first chunk, whose later chunks carry the same
    payloads and have pipelines that are empty at the same positions, are
    assembled into the same result (the same Job record, task list and
    error). *)
Theorem later_envelopes_ignored :
  (forall (first : SyncSubmitRequest.t) (cs cs' : list SyncSubmitRequest.t),
      Forall2 same_shard_sync cs cs' ->
      receiveSyncJobStream (chunks (first :: cs))
      = receiveSyncJobStream (chunks (first :: cs')))
  /\ (forall (first : AsyncSubmitRequest.t) (cs cs' : list AsyncSubmitRequest.t),
      Forall2 same_shard_async cs cs' ->
      receiveAsyncJobStream (chunks (first :: cs))
      = receiveAsyncJobStream (chunks (first :: cs'))).
Proof.
  split; intros first cs cs' Hsame.
  - unfold receiveSyncJobStream. simpl.
    destruct (SyncSubmitRequest.PluginSet first) as [|p ps]; [reflexivity|].
    simpl. apply receiveSyncLoop_same_shards. exact Hsame.
  - unfold receiveAsyncJobStream. simpl.
    destruct (AsyncSubmitRequest.PluginSet first) as [|p ps]; [reflexivity|].
    simpl. apply receiveAsyncLoop_same_shards. exact Hsame.
Qed.

(** A second chunk with another name, pipeline, label, source, policy, type
    and notify flag. *)
Lemma later_envelopes_ignored_witness :
  receiveSyncJobStream (chunks [Mem.sync_chunk "a"; Mem.sync_chunk "b"])
  = receiveSyncJobStream
      (chunks [Mem.sync_chunk "a";
               SyncSubmitRequest.mk "other" ["q"] "l2" "s2" 7 "b"])
  /\ receiveAsyncJobStream (chunks [Mem.async_chunk "a"; Mem.async_chunk "b"])
     = receiveAsyncJobStream
         (chunks [Mem.async_chunk "a";
                  AsyncSubmitRequest.mk "other" "t2" ["q"] false "l2" "s2" 7 "b"]).
Proof.
  split.
  - apply (proj1 later_envelopes_ignored (Mem.sync_chunk "a")
             [Mem.sync_chunk "b"]
             [SyncSubmitRequest.mk "other" ["q"] "l2" "s2" 7 "b"]).
    repeat constructor; simpl; discriminate.
  - apply (proj2 later_envelopes_ignored (Mem.async_chunk "a")
             [Mem.async_chunk "b"]
             [AsyncSubmitRequest.mk "other" "t2" ["q"] false "l2" "s2" 7 "b"]).
    repeat constructor; simpl; discriminate.
Defined.

(** C7 (as stated) fails on the code: the pipeline is an envelope field, and
    the guard [len(r.PluginSet) == 0] reads it on every chunk. Two sequences
    that differ in nothing but the pipeline of the second chunk: the first is
    assembled into a job of size 2, the second fails and leaves a job whose
    size was never set. *)
Lemma later_envelopes_ignored_counterexample :
  receiveSyncJobStream
    (chunks [SyncSubmitRequest.mk "job1" ["p1"] "l" "s" 0 "a";
             SyncSubmitRequest.mk "job1" ["p1"] "l" "s" 0 "b"])
  = Returned
      (JobInfo.mk (Some (Job.mk 0 "job1" "" "p1" 0 0 "l" "s" 0 2 0 ""))
         [Task.mk 0 0 0 "job1-0" "a" "p1" 0 "";
          Task.mk 0 0 1 "job1-1" "b" "p1" 0 ""],
       None)
  /\ receiveSyncJobStream
       (chunks [SyncSubmitRequest.mk "job1" ["p1"] "l" "s" 0 "a";
                SyncSubmitRequest.mk "job1" [] "l" "s" 0 "b"])
     = Returned
         (JobInfo.mk (Some (Job.mk 0 "job1" "" "p1" 0 0 "l" "s" 0 0 0 ""))
            [Task.mk 0 0 0 "job1-0" "a" "p1" 0 ""],
          Some (ToGrpcErr errCode.ErrPluginSetEmpty)).
Proof. split; reflexivity. Qed.

(** ** C2: persistence *)

Lemma stamp_JobId_Some j items :
  stamp_JobId (Some j) items = Returned (map (Task.set_JobId (Job.Id j)) items).
Proof.
  induction items as [|k items IH]; simpl; [reflexivity|].
  rewrite IH. reflexivity.
Qed.

(** C2. On an aggregate that has a job, [persistence] runs one transaction:
    it saves the job first, gives every task of the list the identifier the
    saved job now has, and batch-saves these tasks. If [Save] returns an error
    the tasks are not saved; if [Save] or [BatchSave] returns an error the
    transaction rolls back, the storage is left as it was before the call, and
    that very error is returned; if neither does, the transaction commits the
    storage as [BatchSave] left it and no error is returned. *)
Theorem persistence_atomic :
  forall (DB : Type) (s : jobService DB) (i : JobInfo.t) (j : Job.t) (db : DB),
    JobInfo.Job i = Some j ->
    (forall tx1 j1 e,
        JobRepository.Save (jobRepo s) db j = (tx1, j1, Some e) ->
        persistence s i db
        = (db,
           [TxBegin; JobRepo_Save (Some j) (Some e); TxRollback],
           Returned (JobInfo.mk (Some j1) (JobInfo.TaskList i), Some e)))
    /\ (forall tx1 j1 tx2 tasks2 e,
        JobRepository.Save (jobRepo s) db j = (tx1, j1, None) ->
        TaskRepository.BatchSave (taskRepo s) tx1
          (map (Task.set_JobId (Job.Id j1)) (JobInfo.TaskList i))
        = (tx2, tasks2, Some e) ->
        persistence s i db
        = (db,
           [TxBegin;
            JobRepo_Save (Some j) None;
            TaskRepo_BatchSave
              (map (Task.set_JobId (Job.Id j1)) (JobInfo.TaskList i)) (Some e);
            TxRollback],
           Returned (JobInfo.mk (Some j1) tasks2, Some e)))
    /\ (forall tx1 j1 tx2 tasks2,
        JobRepository.Save (jobRepo s) db j = (tx1, j1, None) ->
        TaskRepository.BatchSave (taskRepo s) tx1
          (map (Task.set_JobId (Job.Id j1)) (JobInfo.TaskList i))
        = (tx2, tasks2, None) ->
        persistence s i db
        = (tx2,
           [TxBegin;
            JobRepo_Save (Some j) None;
            TaskRepo_BatchSave
              (map (Task.set_JobId (Job.Id j1)) (JobInfo.TaskList i)) None;
            TxCommit],
           Returned (JobInfo.mk (Some j1) tasks2, None))).
Proof.
  intros DB s i j db Hj.
  repeat split; intros;
    unfold persistence, Transaction, bindM, call_Save, call_BatchSave, lift, ret;
    rewrite Hj;
    repeat match goal with H : _ = (_, _, _) |- _ => rewrite H; clear H end;
    simpl; rewrite ?stamp_JobId_Some;
    repeat match goal with H : _ = (_, _, _) |- _ => rewrite H; clear H end;
    reflexivity.
Qed.

(** The batch save fails on the in-memory storage: nothing is stored. *)
Lemma persistence_atomic_witness :
  persistence (Mem.service None) (JobInfo.mk (Some Mem.job1) Mem.tasks_ab)
    Mem.broken_BatchSave
  = (Mem.broken_BatchSave,
     [TxBegin;
      JobRepo_Save (Some Mem.job1) None;
      TaskRepo_BatchSave (map (Task.set_JobId 1) Mem.tasks_ab)
        (Some (ExternalErr "disk full"));
      TxRollback],
     Returned
       (JobInfo.mk (Some (Job.set_Id 1 Mem.job1))
          (map (Task.set_JobId 1) Mem.tasks_ab),
        Some (ExternalErr "disk full"))).
Proof.
  apply (proj1 (proj2 (persistence_atomic Mem.DB (Mem.service None)
                         (JobInfo.mk (Some Mem.job1) Mem.tasks_ab) Mem.job1
                         Mem.broken_BatchSave eq_refl))
           (fst (fst (Mem.Save Mem.broken_BatchSave Mem.job1)))
           (Job.set_Id 1 Mem.job1)
           (fst (fst (Mem.Save Mem.broken_BatchSave Mem.job1)))
           (map (Task.set_JobId 1) Mem.tasks_ab)
           (ExternalErr "disk full"));
    reflexivity.
Defined.

(** ** C6: reconciliation *)

(** C6. On an aggregate that has a job, [reloadJobInfo] reads the job row by
    the job's identifier. A storage error of that read is returned unchanged,
    without a second read. A missing row (nil, no error) gives the
    job-not-found condition. Otherwise the task list is read for the
    identifier of the reloaded job, the aggregate is made of the reloaded job
    and that list, and the error of the second read, if any, is returned
    unchanged. The storage is only read. *)
Theorem reloadJobInfo_reloads :
  forall (DB : Type) (s : jobService DB) (i : JobInfo.t) (j : Job.t) (db : DB),
    JobInfo.Job i = Some j ->
    (forall job e,
        JobRepository.FindById (jobRepo s) db (Job.Id j) = (job, Some e) ->
        reloadJobInfo s (Some i) db
        = (db,
           [JobRepo_FindById (Job.Id j) job (Some e)],
           Returned (JobInfo.mk job (JobInfo.TaskList i), Some e)))
    /\ (JobRepository.FindById (jobRepo s) db (Job.Id j) = (None, None) ->
        reloadJobInfo s (Some i) db
        = (db,
           [JobRepo_FindById (Job.Id j) None None],
           Returned
             (JobInfo.mk None (JobInfo.TaskList i),
              Some (ToGrpcErr errCode.ErrJobNotFound))))
    /\ (forall j' tasks err,
        JobRepository.FindById (jobRepo s) db (Job.Id j) = (Some j', None) ->
        TaskRepository.List (taskRepo s) db (Job.Id j') = (tasks, err) ->
        reloadJobInfo s (Some i) db
        = (db,
           [JobRepo_FindById (Job.Id j) (Some j') None;
            TaskRepo_List (Job.Id j') tasks err],
           Returned (JobInfo.mk (Some j') tasks, err))).
Proof.
  intros DB s i j db Hj.
  repeat split; intros;
    unfold reloadJobInfo, bindM, call_FindById, call_List, lift, ret;
    rewrite Hj; simpl;
    repeat match goal with H : _ = (_, _) |- _ => rewrite H; clear H end;
    simpl;
    repeat match goal with H : _ = (_, _) |- _ => rewrite H; clear H end;
    reflexivity.
Qed.

(** The reload of a job that was never stored. *)
Lemma reloadJobInfo_reloads_witness :
  reloadJobInfo (Mem.service None)
    (Some (JobInfo.mk (Some (Job.set_Id 1 Mem.job1)) Mem.tasks_ab)) Mem.empty
  = (Mem.empty,
     [JobRepo_FindById 1 None None],
     Returned
       (JobInfo.mk None Mem.tasks_ab, Some (ToGrpcErr errCode.ErrJobNotFound))).
Proof.
  apply (proj1 (proj2 (reloadJobInfo_reloads Mem.DB (Mem.service None)
                         (JobInfo.mk (Some (Job.set_Id 1 Mem.job1)) Mem.tasks_ab)
                         (Job.set_Id 1 Mem.job1) Mem.empty eq_refl))).
  reflexivity.
Defined.

(** A stored job is read back with its tasks. *)
Example reload_after_persistence :
  let '(db, _, _) :=
    persistence (Mem.service None) (JobInfo.mk (Some Mem.job1) Mem.tasks_ab)
      Mem.empty in
  outcome_of
    (reloadJobInfo (Mem.service None)
       (Some (JobInfo.mk (Some (Job.set_Id 1 Mem.job1)) [])) db)
  = Returned
      (JobInfo.mk (Some (Job.set_Id 1 Mem.job1))
         [Task.mk 1 1 0 "job1-0" "a" "p1" 0 "";
          Task.mk 2 1 1 "job1-1" "b" "p1" 0 ""],
       None).
Proof. reflexivity. Qed.

(** ** C8: the notification entry point *)

(** C8. [AsyncNotify] fails on every input: it panics with the message
    [not implemented], calls no collaborator, and never returns a response. *)
Theorem AsyncNotify_unimplemented :
  forall (DB Ctx Req Resp : Type) (ctx : Ctx) (req : Req) (db : DB),
    AsyncNotify (Resp := Resp) ctx req db
    = (db, [], Panicked (PanicMsg "not implemented"))
    /\ forall (resp : option Resp) (err : option error),
         outcome_of (AsyncNotify (Resp := Resp) ctx req db) <> Returned (resp, err).
Proof.
  intros. split; [reflexivity|]. intros resp err. discriminate.
Qed.

(** ** C4: the synchronous submission *)

Lemma storage_only_app evs evs' :
  storage_only evs -> storage_only evs' -> storage_only (evs ++ evs').
Proof. intros H H'. apply Forall_app. split; assumption. Qed.

Lemma storage_only_In e pre evs :
  storage_only pre -> is_storage e = false -> In e (pre ++ evs) -> In e evs.
Proof.
  intros Hpre He Hin. apply in_app_or in Hin. destruct Hin as [Hin|Hin]; [|exact Hin].
  unfold storage_only in Hpre. rewrite Forall_forall in Hpre.
  apply Hpre in Hin. congruence.
Qed.

Lemma storage_only_no_response evs :
  storage_only evs -> sync_responses evs = [] /\ async_responses evs = [].
Proof.
  induction 1 as [|e evs He _ [IHs IHa]]; [split; reflexivity|].
  unfold sync_responses, async_responses in *. simpl. rewrite IHs, IHa.
  destruct e; try discriminate; split; reflexivity.
Qed.

Lemma persistence_storage_only {DB : Type} (s : jobService DB) i db :
  storage_only (trace_of (persistence s i db)).
Proof.
  unfold persistence, Transaction, bindM, call_Save, call_BatchSave, lift, ret, trace_of.
  destruct (JobInfo.Job i) as [j|].
  - destruct (JobRepository.Save (jobRepo s) db j) as [[tx1 j1] [e|]]; simpl.
    + repeat constructor.
    + rewrite stamp_JobId_Some.
      destruct (TaskRepository.BatchSave (taskRepo s) tx1 _) as [[tx2 l2] [e|]];
        simpl; repeat constructor.
  - destruct (JobRepository.Save_nil (jobRepo s) db) as [tx1 [e|]]; simpl.
    + repeat constructor.
    + destruct (JobInfo.TaskList i) as [|k l]; simpl.
      * destruct (TaskRepository.BatchSave (taskRepo s) tx1 []) as [[tx2 l2] [e|]];
          simpl; repeat constructor.
      * repeat constructor.
Qed.

Lemma reloadJobInfo_storage_only {DB : Type} (s : jobService DB) i db :
  storage_only (trace_of (reloadJobInfo s i db)).
Proof.
  unfold reloadJobInfo, bindM, call_FindById, call_List, lift, ret, trace_of.
  destruct (JobInfo.Job match i with Some i0 => i0 | None => JobInfo.empty end)
    as [j|]; simpl; [|constructor].
  destruct (JobRepository.FindById (jobRepo s) db (Job.Id j)) as [[j'|] [e|]];
    simpl; try (repeat constructor).
  destruct (TaskRepository.List (taskRepo s) db (Job.Id j')) as [l err]; simpl.
  repeat constructor.
Qed.

(** A reload that returns no error ends with the two reads, and its aggregate
    is what they returned. *)
Lemma reloadJobInfo_ok {DB : Type} (s : jobService DB) i db db' evs i' :
  reloadJobInfo s i db = (db', evs, Returned (i', None)) ->
  exists id j0 tasks,
    evs = [JobRepo_FindById id (Some j0) None; TaskRepo_List (Job.Id j0) tasks None]
    /\ i' = JobInfo.mk (Some j0) tasks.
Proof.
  unfold reloadJobInfo, bindM, call_FindById, call_List, lift, ret.
  destruct (JobInfo.Job match i with Some i0 => i0 | None => JobInfo.empty end)
    as [j|]; simpl; [|discriminate].
  destruct (JobRepository.FindById (jobRepo s) db (Job.Id j)) as [[j'|] [e|]];
    simpl; try discriminate.
  destruct (TaskRepository.List (taskRepo s) db (Job.Id j')) as [l [e|]]; simpl;
    [discriminate|].
  intros H. inversion H; subst. exists (Job.Id j), j', l. split; reflexivity.
Qed.

(** Every run of [SyncSubmit] either ends before the engine is called, with
    calls to the storage only, or reaches the engine with the aggregate the
    reload read; what follows the call of the engine depends on its result
    alone. *)
Lemma SyncSubmit_runs {DB : Type} (s : jobService DB) stream db :
  storage_only (trace_of (SyncSubmit s stream db))
  \/ exists pre id j0 tasks after err,
       storage_only pre
       /\ trace_of (SyncSubmit s stream db)
          = pre
            ++ [JobRepo_FindById id (Some j0) None;
                TaskRepo_List (Job.Id j0) tasks None;
                Engine_StartJob (JobInfo.mk (Some j0) tasks) after err]
            ++ match err, JobInfo.Job after with
               | None, Some j =>
                   [Sync_SendAndClose
                      (SyncSubmitResponse.mk (Job.Id j) (Job.Status j) (Job.Result j))
                      (SendAndClose_err stream)]
               | _, _ => []
               end
       /\ outcome_of (SyncSubmit s stream db)
          = match err, JobInfo.Job after with
            | _, None => Panicked NilDereference
            | Some e, Some _ => Returned (Some e)
            | None, Some _ => Returned (SendAndClose_err stream)
            end.
Proof.
  unfold SyncSubmit, bindM, lift, return_if_err, ret, trace_of, outcome_of.
  destruct (receiveSyncJobStream (inbox stream)) as [[i [e|]]|p]; simpl;
    try (left; constructor).
  destruct (JobInfo.Job i) as [j|]; simpl; [|left; constructor].
  pose proof (persistence_storage_only s
                (JobInfo.set_Job (Some (Job.set_IsAsync 0 j)) i) db) as Hp.
  unfold trace_of in Hp.
  destruct (persistence s (JobInfo.set_Job (Some (Job.set_IsAsync 0 j)) i) db)
    as [[db1 evs1] [[i1 [e|]]|p]]; simpl in *;
    try (left; rewrite ?app_nil_r; exact Hp).
  pose proof (reloadJobInfo_storage_only s (Some i1) db1) as Hr.
  pose proof (reloadJobInfo_ok s (Some i1) db1) as Hok.
  unfold trace_of in Hr.
  destruct (reloadJobInfo s (Some i1) db1) as [[db2 evs2] [[i2 [e|]]|p]];
    simpl in *;
    try (left; rewrite ?app_nil_r; apply storage_only_app; assumption).
  destruct (Hok db2 evs2 i2 eq_refl) as (id & j0 & tasks & -> & ->).
  unfold call_StartJob.
  destruct (ApplicationContext.StartJob (appCtx s) db2 (JobInfo.mk (Some j0) tasks))
    as [[db3 after] err].
  right. exists evs1, id, j0, tasks, after, err.
  split; [exact Hp|].
  destruct err as [e|]; destruct (JobInfo.Job after) as [j'|]; simpl;
    split; reflexivity.
Qed.

(** C4. In every run of [SyncSubmit]:
    - a response is sent only as the call that directly follows a call of
      [StartJob] that returned no error, that call was given the aggregate
      the reload read, and the response carries the identifier, status and
      result of the job as [StartJob] left it;
    - when [StartJob] returns no error (and leaves the job of the aggregate in
      place) that response is sent, and the request ends with what
      [SendAndClose] returns;
    - when [StartJob] returns an error no response is sent, and (the job of
      the aggregate left in place) the request returns this very error. *)
Theorem SyncSubmit_responds_after_StartJob :
  forall (DB : Type) (s : jobService DB)
         (stream : ServerStream SyncSubmitRequest.t) (db : DB),
    (forall resp err,
        In (Sync_SendAndClose resp err) (trace_of (SyncSubmit s stream db)) ->
        exists pre id j0 tasks after j,
          trace_of (SyncSubmit s stream db)
          = pre
            ++ [JobRepo_FindById id (Some j0) None;
                TaskRepo_List (Job.Id j0) tasks None;
                Engine_StartJob (JobInfo.mk (Some j0) tasks) after None;
                Sync_SendAndClose resp err]
          /\ storage_only pre
          /\ JobInfo.Job after = Some j
          /\ resp = SyncSubmitResponse.mk (Job.Id j) (Job.Status j) (Job.Result j))
    /\ (forall arg after j,
        In (Engine_StartJob arg after None) (trace_of (SyncSubmit s stream db)) ->
        JobInfo.Job after = Some j ->
        sync_responses (trace_of (SyncSubmit s stream db))
        = [SyncSubmitResponse.mk (Job.Id j) (Job.Status j) (Job.Result j)]
        /\ outcome_of (SyncSubmit s stream db) = Returned (SendAndClose_err stream))
    /\ (forall arg after e,
        In (Engine_StartJob arg after (Some e)) (trace_of (SyncSubmit s stream db)) ->
        sync_responses (trace_of (SyncSubmit s stream db)) = []
        /\ forall j,
             JobInfo.Job after = Some j ->
             outcome_of (SyncSubmit s stream db) = Returned (Some e)).
Proof.
  intros DB s stream db.
  destruct (SyncSubmit_runs s stream db)
    as [Hst | (pre & id & j0 & tasks & after & err & Hpre & Htr & Hout)].
  - (* the engine was not reached *)
    unfold storage_only in Hst. rewrite Forall_forall in Hst.
    repeat split; intros; match goal with H : In _ _ |- _ => apply Hst in H end;
      discriminate.
  - rewrite Htr, Hout. clear Htr Hout.
    destruct (storage_only_no_response pre Hpre) as [Hnone _].
    split; [|split].
    + intros resp e Hin. apply storage_only_In in Hin; [|exact Hpre|reflexivity].
      simpl in Hin. destruct Hin as [Hin|[Hin|[Hin|Hin]]]; try discriminate.
      destruct err as [e'|]; [destruct Hin|].
      destruct (JobInfo.Job after) as [j|] eqn:Hj; [|destruct Hin].
      destruct Hin as [Hin|[]]. inversion Hin; subst.
      exists pre, id, j0, tasks, after, j. repeat split; assumption.
    + intros arg after' j Hin Hj.
      apply storage_only_In in Hin; [|exact Hpre|reflexivity].
      simpl in Hin. destruct Hin as [Hin|[Hin|[Hin|Hin]]]; try discriminate.
      * inversion Hin; subst. rewrite Hj.
        unfold sync_responses in *. rewrite flat_map_app, Hnone.
        split; reflexivity.
      * destruct err as [e'|]; [destruct Hin|].
        destruct (JobInfo.Job after) as [j'|];
          [destruct Hin as [Hin|[]]; discriminate | destruct Hin].
    + intros arg after' e Hin.
      apply storage_only_In in Hin; [|exact Hpre|reflexivity].
      simpl in Hin. destruct Hin as [Hin|[Hin|[Hin|Hin]]]; try discriminate.
      * inversion Hin; subst.
        unfold sync_responses in *. rewrite flat_map_app, Hnone.
        split; [reflexivity|]. intros j Hj. rewrite Hj. reflexivity.
      * destruct err as [e'|]; [destruct Hin|].
        destruct (JobInfo.Job after) as [j'|];
          [destruct Hin as [Hin|[]]; discriminate | destruct Hin].
Qed.

(** The engine fails on a stored job: the request fails with the engine's
    error and nothing is sent. *)
Lemma SyncSubmit_responds_after_StartJob_witness :
  sync_responses
    (trace_of
       (SyncSubmit (Mem.service (Some (ExternalErr "plugin crashed")))
          (mk_ServerStream _ (chunks [Mem.sync_chunk "a"; Mem.sync_chunk "b"]) None)
          Mem.empty))
  = []
  /\ outcome_of
       (SyncSubmit (Mem.service (Some (ExternalErr "plugin crashed")))
          (mk_ServerStream _ (chunks [Mem.sync_chunk "a"; Mem.sync_chunk "b"]) None)
          Mem.empty)
     = Returned (Some (ExternalErr "plugin crashed")).
Proof.
  destruct (proj2 (proj2 (SyncSubmit_responds_after_StartJob Mem.DB
                            (Mem.service (Some (ExternalErr "plugin crashed")))
                            (mk_ServerStream _
                               (chunks [Mem.sync_chunk "a"; Mem.sync_chunk "b"]) None)
                            Mem.empty))
              (JobInfo.mk (Some (Job.set_Id 1 Mem.job1))
                 (Mem.number 1 (map (Task.set_JobId 1) Mem.tasks_ab)))
              (JobInfo.mk
                 (Some (Job.set_Status_Result 2 "R" (Job.set_Id 1 Mem.job1)))
                 (Mem.number 1 (map (Task.set_JobId 1) Mem.tasks_ab)))
              (ExternalErr "plugin crashed"))
    as [Hnone Hout].
  - simpl. do 6 right. left. reflexivity.
  - split; [exact Hnone|]. apply (Hout _ eq_refl).
Defined.

(** The engine of the spec's test: it sets the status and the result, and
    [SyncSubmit] answers with them. *)
Example SyncSubmit_done :
  SyncSubmit (Mem.service None)
    (mk_ServerStream _ (chunks [Mem.sync_chunk "a"; Mem.sync_chunk "b"]) None)
    Mem.empty
  = (Mem.mk [Job.set_Id 1 Mem.job1]
       [Task.mk 1 1 0 "job1-0" "a" "p1" 0 ""; Task.mk 2 1 1 "job1-1" "b" "p1" 0 ""]
       None None None None,
     [TxBegin;
      JobRepo_Save (Some Mem.job1) None;
      TaskRepo_BatchSave (map (Task.set_JobId 1) Mem.tasks_ab) None;
      TxCommit;
      JobRepo_FindById 1 (Some (Job.set_Id 1 Mem.job1)) None;
      TaskRepo_List 1
        [Task.mk 1 1 0 "job1-0" "a" "p1" 0 ""; Task.mk 2 1 1 "job1-1" "b" "p1" 0 ""]
        None;
      Engine_StartJob
        (JobInfo.mk (Some (Job.set_Id 1 Mem.job1))
           [Task.mk 1 1 0 "job1-0" "a" "p1" 0 ""; Task.mk 2 1 1 "job1-1" "b" "p1" 0 ""])
        (JobInfo.mk (Some (Job.set_Status_Result 2 "R" (Job.set_Id 1 Mem.job1)))
           [Task.mk 1 1 0 "job1-0" "a" "p1" 0 ""; Task.mk 2 1 1 "job1-1" "b" "p1" 0 ""])
        None;
      Sync_SendAndClose (SyncSubmitResponse.mk 1 2 "R") None],
     Returned None).
Proof. reflexivity. Qed.

(** ** C5: the asynchronous submission *)






(** The failing engine, run before the response: the caller still gets the
    identifier and no error. *)
Example AsyncSubmit_accepted :
  let r :=
    AsyncSubmit (Mem.service (Some (ExternalErr "plugin crashed"))) GoroutineFirst
      (mk_ServerStream _ (chunks [Mem.async_chunk "a"; Mem.async_chunk "b"]) None)
      Mem.empty in
  outcome_of r = Returned None
  /\ async_responses (trace_of r) = [AsyncSubmitResponse.mk 1].
Proof. split; reflexivity. Qed.

(** ** C10: the two assemblers side by side *)

Lemma sync_Job_to_sync r : sync_Job (to_sync r) = without_async_fields (async_Job r).
Proof. unfold async_Job. destruct (AsyncSubmitRequest.IsNotify r); reflexivity. Qed.

Lemma async_Job_Name r : Job.Name (async_Job r) = AsyncSubmitRequest.Name r.
Proof. unfold async_Job. destruct (AsyncSubmitRequest.IsNotify r); reflexivity. Qed.

Lemma after_loop_without_async_fields i :
  after_loop (info_without_async_fields i)
  = map_outcome result_without_async_fields (after_loop i).
Proof. destruct i as [[j|] l]; reflexivity. Qed.

(** The synchronous loop on the same stream, started in the same state but
    for the three fields, ends as the asynchronous loop does but for the three
    fields. *)
Lemma receiveSyncLoop_sync_stream s :
  forall i fp sh,
    receiveSyncLoop (sync_stream s) (info_without_async_fields i) fp sh
    = map_outcome result_without_async_fields (receiveAsyncLoop s i fp sh).
Proof.
  induction s as [|[r|e] s IH]; intros i fp sh.
  - apply after_loop_without_async_fields.
  - simpl. destruct (AsyncSubmitRequest.PluginSet r) as [|p ps]; [reflexivity|].
    destruct i as [[j|] l]; simpl.
    + apply (IH (JobInfo.mk (Some j) _)).
    + rewrite sync_Job_to_sync, async_Job_Name.
      apply (IH (JobInfo.mk (Some (async_Job r)) _)).
  - simpl. destruct e; try reflexivity. apply after_loop_without_async_fields.
Qed.

(** Once the job is set the asynchronous loop writes nothing to it but its
    size. *)
Lemma receiveAsyncLoop_job s :
  forall j acc fp sh i err,
    receiveAsyncLoop s (JobInfo.mk (Some j) acc) fp sh = Returned (i, err) ->
    exists size, JobInfo.Job i = Some (Job.set_Size size j).
Proof.
  assert (Hafter : forall j acc i err,
             after_loop (JobInfo.mk (Some j) acc) = Returned (i, err) ->
             exists size, JobInfo.Job i = Some (Job.set_Size size j)).
  { intros j acc i err H. inversion H; subst. eexists; reflexivity. }
  assert (Hid : forall j : Job.t, Job.set_Size (Job.Size j) j = j)
    by (intros []; reflexivity).
  induction s as [|[r|e] s IH]; intros j acc fp sh i err H; simpl in H.
  - eapply Hafter; eassumption.
  - destruct (AsyncSubmitRequest.PluginSet r) as [|p ps].
    + inversion H; subst. exists (Job.Size j). simpl. rewrite Hid. reflexivity.
    + simpl in H. eapply IH; eassumption.
  - destruct e; try (eapply Hafter; eassumption);
      inversion H; subst; exists (Job.Size j); simpl; rewrite Hid; reflexivity.
Qed.

(** A successful asynchronous assembly started with a chunk, and its job has
    the type of that chunk, the asynchronous mark and the chunk's notify
    flag. *)
Lemma receiveAsyncJobStream_ok s i :
  receiveAsyncJobStream s = Returned (i, None) ->
  exists first rest j,
    s = inl first :: rest
    /\ JobInfo.Job i = Some j
    /\ Job.Type_ j = AsyncSubmitRequest.Type_ first
    /\ Job.IsAsync j = 1
    /\ Job.IsNotify j = (if AsyncSubmitRequest.IsNotify first then 1 else 0).
Proof.
  intros H. unfold receiveAsyncJobStream in H.
  destruct s as [|[r|e] s]; simpl in H.
  - discriminate.
  - destruct (AsyncSubmitRequest.PluginSet r) as [|p ps]; [discriminate|].
    simpl in H. apply receiveAsyncLoop_job in H. destruct H as [size Hj].
    exists r, s, (Job.set_Size size (async_Job r)).
    split; [reflexivity|]. split; [exact Hj|].
    unfold async_Job. destruct (AsyncSubmitRequest.IsNotify r); repeat split.
  - destruct e; discriminate.
Qed.

(** The only [Save] of [persistence] is given the job of the aggregate. *)
Lemma persistence_Save_arg {DB : Type} (s : jobService DB) i db arg err :
  In (JobRepo_Save arg err) (trace_of (persistence s i db)) -> arg = JobInfo.Job i.
Proof.
  unfold persistence, Transaction, bindM, call_Save, call_BatchSave, lift, ret, trace_of.
  destruct (JobInfo.Job i) as [j|].
  - destruct (JobRepository.Save (jobRepo s) db j) as [[tx1 j1] [e|]]; simpl.
    + intros [H|[H|[H|[]]]]; congruence.
    + rewrite stamp_JobId_Some.
      destruct (TaskRepository.BatchSave (taskRepo s) tx1 _) as [[tx2 l2] [e|]];
        simpl; intros [H|[H|[H|[H|[]]]]]; congruence.
  - destruct (JobRepository.Save_nil (jobRepo s) db) as [tx1 [e|]]; simpl.
    + intros [H|[H|[H|[]]]]; congruence.
    + destruct (JobInfo.TaskList i) as [|k l]; simpl.
      * destruct (TaskRepository.BatchSave (taskRepo s) tx1 []) as [[tx2 l2] [e|]];
          simpl; intros [H|[H|[H|[H|[]]]]]; congruence.
      * intros [H|[H|[H|[]]]]; congruence.
Qed.

(** [reloadJobInfo] writes nothing. *)
Lemma reloadJobInfo_no_write {DB : Type} (s : jobService DB) i db :
  Forall (fun e => is_write e = false) (trace_of (reloadJobInfo s i db)).
Proof.
  unfold reloadJobInfo, bindM, call_FindById, call_List, lift, ret, trace_of.
  destruct (JobInfo.Job match i with Some i0 => i0 | None => JobInfo.empty end)
    as [j|]; simpl; [|constructor].
  destruct (JobRepository.FindById (jobRepo s) db (Job.Id j)) as [[j'|] [e|]];
    simpl; try (repeat constructor).
  destruct (TaskRepository.List (taskRepo s) db (Job.Id j')) as [l err]; simpl.
  repeat constructor.
Qed.

Lemma no_write_In e evs :
  Forall (fun e => is_write e = false) evs -> In e evs -> is_write e = false.
Proof. intros Hall Hin. rewrite Forall_forall in Hall. apply Hall. exact Hin. Qed.

(** Whatever [SyncSubmit] saves is a job with [IsAsync = 0]. *)
Lemma SyncSubmit_saved_job {DB : Type} (s : jobService DB) stream db arg err :
  In (JobRepo_Save arg err) (trace_of (SyncSubmit s stream db)) ->
  exists j, arg = Some j /\ Job.IsAsync j = 0.
Proof.
  unfold SyncSubmit, bindM, lift, return_if_err, ret, trace_of.
  destruct (receiveSyncJobStream (inbox stream)) as [[i [e|]]|p]; simpl;
    try (intros []).
  destruct (JobInfo.Job i) as [j|]; simpl; [|intros []].
  pose proof (persistence_Save_arg s
                (JobInfo.set_Job (Some (Job.set_IsAsync 0 j)) i) db arg err) as Hp.
  unfold trace_of in Hp.
  assert (Hgoal : In (JobRepo_Save arg err)
                    (snd (fst (persistence s
                                 (JobInfo.set_Job (Some (Job.set_IsAsync 0 j)) i) db))) ->
                  exists j0, arg = Some j0 /\ Job.IsAsync j0 = 0).
  { intros Hin. apply Hp in Hin. simpl in Hin. eexists. split; [exact Hin|reflexivity]. }
  clear Hp.
  destruct (persistence s (JobInfo.set_Job (Some (Job.set_IsAsync 0 j)) i) db)
    as [[db1 evs1] [[i1 [e|]]|p]]; simpl in *;
    try (rewrite ?app_nil_r; exact Hgoal).
  pose proof (reloadJobInfo_no_write s (Some i1) db1) as Hr. unfold trace_of in Hr.
  destruct (reloadJobInfo s (Some i1) db1) as [[db2 evs2] [[i2 [e|]]|p]];
    simpl in *;
    try (rewrite ?app_nil_r; intros Hin; apply in_app_or in Hin;
         destruct Hin as [Hin|Hin];
         [exact (Hgoal Hin) | apply (no_write_In _ _ Hr) in Hin; discriminate]).
  unfold call_StartJob.
  destruct (ApplicationContext.StartJob (appCtx s) db2 i2) as [[db3 i3] [e|]];
    destruct (JobInfo.Job i3) as [j3|]; simpl; intros Hin;
    apply in_app_or in Hin; (destruct Hin as [Hin|Hin]; [exact (Hgoal Hin)|]);
    apply in_app_or in Hin;
    (destruct Hin as [Hin|Hin]; [apply (no_write_In _ _ Hr) in Hin; discriminate|]);
    simpl in Hin; intuition discriminate.
Qed.

(** Whatever [AsyncSubmit] saves is a job with [IsAsync = 1]. *)
Lemma AsyncSubmit_saved_job {DB : Type} (s : jobService DB) sched stream db arg err :
  In (JobRepo_Save arg err) (trace_of (AsyncSubmit s sched stream db)) ->
  exists j, arg = Some j /\ Job.IsAsync j = 1.
Proof.
  unfold AsyncSubmit, bindM, lift, return_if_err, ret, trace_of.
  destruct (receiveAsyncJobStream (inbox stream)) as [[i [e|]]|p] eqn:Hrecv; simpl;
    try (intros []).
  destruct (receiveAsyncJobStream_ok _ _ Hrecv) as (first & rest & j & _ & Hj & _ & Hasync & _).
  pose proof (persistence_Save_arg s i db arg err) as Hp.
  unfold trace_of in Hp.
  assert (Hgoal : In (JobRepo_Save arg err) (snd (fst (persistence s i db))) ->
                  exists j0, arg = Some j0 /\ Job.IsAsync j0 = 1).
  { intros Hin. apply Hp in Hin. exists j. split; congruence. }
  clear Hp.
  destruct (persistence s i db) as [[db1 evs1] [[i1 [e|]]|p]]; simpl in *;
    try (rewrite ?app_nil_r; exact Hgoal).
  pose proof (reloadJobInfo_no_write s (Some i1) db1) as Hr. unfold trace_of in Hr.
  destruct (reloadJobInfo s (Some i1) db1) as [[db2 evs2] [[i2 [e|]]|p]];
    simpl in *;
    try (rewrite ?app_nil_r; intros Hin; apply in_app_or in Hin;
         destruct Hin as [Hin|Hin];
         [exact (Hgoal Hin) | apply (no_write_In _ _ Hr) in Hin; discriminate]).
  unfold go_StartJob. destruct sched.
  - destruct (ApplicationContext.StartJob (appCtx s) db2 i2) as [[db3 i3] err3].
    destruct (JobInfo.Job i3) as [j3|]; simpl; intros Hin;
      apply in_app_or in Hin; (destruct Hin as [Hin|Hin]; [exact (Hgoal Hin)|]);
      apply in_app_or in Hin;
      (destruct Hin as [Hin|Hin]; [apply (no_write_In _ _ Hr) in Hin; discriminate|]);
      simpl in Hin; intuition discriminate.
  - destruct (JobInfo.Job i2) as [j2|]; simpl; intros Hin;
      apply in_app_or in Hin; (destruct Hin as [Hin|Hin]; [exact (Hgoal Hin)|]);
      apply in_app_or in Hin;
      (destruct Hin as [Hin|Hin]; [apply (no_write_In _ _ Hr) in Hin; discriminate|]);
      simpl in Hin; intuition discriminate.
Qed.

(** C10. On every stream, [receiveSyncJobStream] ends as
    [receiveAsyncJobStream] does, with the same error or the same panic, the
    same task list, and a Job record that is the asynchronous one with the
    fields [Type], [IsAsync] and [IsNotify] at their zero values. When the
    asynchronous assembler succeeds its job has the type of the first chunk,
    [IsAsync = 1], and [IsNotify = 1] exactly when the first chunk's notify
    flag is set; when the synchronous assembler succeeds the three fields are
    zero, so that the assignment [jobInfo.Job.IsAsync = 0] of [SyncSubmit]
    leaves the job as it is. The job [SyncSubmit] saves has [IsAsync = 0], the
    job [AsyncSubmit] saves has [IsAsync = 1]. *)
Theorem sync_async_assemblers_agree :
  (forall s : incoming AsyncSubmitRequest.t,
      receiveSyncJobStream (sync_stream s)
      = map_outcome result_without_async_fields (receiveAsyncJobStream s))
  /\ (forall (s : incoming AsyncSubmitRequest.t) (i : JobInfo.t),
      receiveAsyncJobStream s = Returned (i, None) ->
      exists first rest j,
        s = inl first :: rest
        /\ JobInfo.Job i = Some j
        /\ Job.Type_ j = AsyncSubmitRequest.Type_ first
        /\ Job.IsAsync j = 1
        /\ Job.IsNotify j = (if AsyncSubmitRequest.IsNotify first then 1 else 0))
  /\ (forall (s : incoming AsyncSubmitRequest.t) (i : JobInfo.t),
      receiveSyncJobStream (sync_stream s) = Returned (i, None) ->
      exists j,
        JobInfo.Job i = Some j
        /\ Job.Type_ j = ""
        /\ Job.IsAsync j = 0
        /\ Job.IsNotify j = 0
        /\ Job.set_IsAsync 0 j = j)
  /\ (forall (DB : Type) (s : jobService DB)
             (stream : ServerStream SyncSubmitRequest.t) (db : DB) arg err,
      In (JobRepo_Save arg err) (trace_of (SyncSubmit s stream db)) ->
      exists j, arg = Some j /\ Job.IsAsync j = 0)
  /\ (forall (DB : Type) (s : jobService DB) (sched : schedule)
             (stream : ServerStream AsyncSubmitRequest.t) (db : DB) arg err,
      In (JobRepo_Save arg err) (trace_of (AsyncSubmit s sched stream db)) ->
      exists j, arg = Some j /\ Job.IsAsync j = 1).
Proof.
  assert (Hrel : forall s : incoming AsyncSubmitRequest.t,
             receiveSyncJobStream (sync_stream s)
             = map_outcome result_without_async_fields (receiveAsyncJobStream s)).
  { intros s. apply (receiveSyncLoop_sync_stream s JobInfo.empty). }
  split; [exact Hrel|]. split; [exact receiveAsyncJobStream_ok|].
  split; [|split].
  - intros s i H. rewrite Hrel in H.
    destruct (receiveAsyncJobStream s) as [[ia [e|]]|p] eqn:Ha; try discriminate.
    inversion H; subst.
    destruct (receiveAsyncJobStream_ok s ia Ha) as (first & rest & j & _ & Hj & _).
    exists (without_async_fields j).
    unfold info_without_async_fields. simpl. rewrite Hj. repeat split.
  - intros DB s stream db arg err. apply SyncSubmit_saved_job.
  - intros DB s sched stream db arg err. apply AsyncSubmit_saved_job.
Qed.

(** The spec's scenario, sent to the asynchronous assembler. *)
Lemma sync_async_assemblers_agree_witness :
  exists first rest j,
    chunks [Mem.async_chunk "a"; Mem.async_chunk "b"] = inl first :: rest
    /\ JobInfo.Job
         (JobInfo.mk
            (Some (Job.mk 0 "job1" "kind" "p1,p2" 1 1 "label" "source" 0 2 0 ""))
            [Task.mk 0 0 0 "job1-0" "a" "p1" 0 "";
             Task.mk 0 0 1 "job1-1" "b" "p1" 0 ""])
       = Some j
    /\ Job.Type_ j = AsyncSubmitRequest.Type_ first
    /\ Job.IsAsync j = 1
    /\ Job.IsNotify j = (if AsyncSubmitRequest.IsNotify first then 1 else 0).
Proof.
  apply (proj1 (proj2 sync_async_assemblers_agree)
           (chunks [Mem.async_chunk "a"; Mem.async_chunk "b"])).
  reflexivity.
Defined.

(** The two assemblers on the spec's scenario. *)
Example sync_async_on_job1 :
  receiveAsyncJobStream (chunks [Mem.async_chunk "a"; Mem.async_chunk "b"])
  = Returned
      (JobInfo.mk
         (Some (Job.mk 0 "job1" "kind" "p1,p2" 1 1 "label" "source" 0 2 0 ""))
         Mem.tasks_ab,
       None)
  /\ receiveSyncJobStream
       (sync_stream (chunks [Mem.async_chunk "a"; Mem.async_chunk "b"]))
     = Returned (JobInfo.mk (Some Mem.job1) Mem.tasks_ab, None).
Proof. split; reflexivity. Qed.

(** * Further properties

    What the code does beyond the claims above: the other ways a stream ends,
    streams of any length, the job record, and the order and number of the
    calls a submission makes. *)

(** ** Transport errors *)

Ltac transport_error_step IH Hall :=
  let Hhd := fresh "Hhd" in
  let Htl := fresh "Htl" in
  let i' := fresh "i'" in
  let Hrun := fresh "Hrun" in
  let Hlen := fresh "Hlen" in
  inversion Hall as [|? ? Hhd Htl]; subst; simpl;
  match goal with
  | |- context [match ?l with [] => _ | _ :: _ => _ end] =>
      destruct l as [|? ?]; [congruence|]
  end;
  match goal with
  | |- context [JobInfo.Job ?i] => destruct i as [[?|] ?]
  end;
  simpl;
  match goal with
  | |- exists _, _ _ ?st ?a ?b = _ /\ _ =>
      destruct (IH st a b Htl) as [i' [Hrun Hlen]]
  end;
  exists i'; (split; [exact Hrun|]);
  rewrite Hlen; unfold JobInfo.AppendSafeTask; simpl;
  rewrite length_app; simpl; lia.

Lemma receiveSyncLoop_transport_error cs e rest :
  e <> io_EOF ->
  forall i fp sh,
    Forall (fun r => SyncSubmitRequest.PluginSet r <> []) cs ->
    exists i',
      receiveSyncLoop (chunks cs ++ inr e :: rest) i fp sh = Returned (i', Some e)
      /\ length (JobInfo.TaskList i') = (length (JobInfo.TaskList i) + length cs)%nat.
Proof.
  intros He. induction cs as [|r cs IH]; intros i fp sh Hall.
  - exists i. simpl. split; [destruct e; congruence | lia].
  - transport_error_step IH Hall.
Qed.

Lemma receiveAsyncLoop_transport_error cs e rest :
  e <> io_EOF ->
  forall i fp sh,
    Forall (fun r => AsyncSubmitRequest.PluginSet r <> []) cs ->
    exists i',
      receiveAsyncLoop (chunks cs ++ inr e :: rest) i fp sh = Returned (i', Some e)
      /\ length (JobInfo.TaskList i') = (length (JobInfo.TaskList i) + length cs)%nat.
Proof.
  intros He. induction cs as [|r cs IH]; intros i fp sh Hall.
  - exists i. simpl. split; [destruct e; congruence | lia].
  - transport_error_step IH Hall.
Qed.

(** X1. When [Recv] returns an error other than [io.EOF] after any number of
    chunks with non-empty pipelines, both assemblers return that very error,
    with one task per chunk received so far; [SyncSubmit] and [AsyncSubmit]
    return it without a single call to the storage, the engine or
    [SendAndClose], whatever would have followed on the stream. *)
Theorem transport_error_aborts :
  (forall (DB : Type) (s : jobService DB) (cs : list SyncSubmitRequest.t)
          (e : error) (rest : incoming SyncSubmitRequest.t)
          (send_err : option error) (db : DB),
      e <> io_EOF ->
      Forall (fun r => SyncSubmitRequest.PluginSet r <> []) cs ->
      (exists i,
          receiveSyncJobStream (chunks cs ++ inr e :: rest) = Returned (i, Some e)
          /\ length (JobInfo.TaskList i) = length cs)
      /\ SyncSubmit s (mk_ServerStream _ (chunks cs ++ inr e :: rest) send_err) db
         = (db, [], Returned (Some e)))
  /\ (forall (DB : Type) (s : jobService DB) (sched : schedule)
          (cs : list AsyncSubmitRequest.t)
          (e : error) (rest : incoming AsyncSubmitRequest.t)
          (send_err : option error) (db : DB),
      e <> io_EOF ->
      Forall (fun r => AsyncSubmitRequest.PluginSet r <> []) cs ->
      (exists i,
          receiveAsyncJobStream (chunks cs ++ inr e :: rest) = Returned (i, Some e)
          /\ length (JobInfo.TaskList i) = length cs)
      /\ AsyncSubmit s sched (mk_ServerStream _ (chunks cs ++ inr e :: rest) send_err) db
         = (db, [], Returned (Some e))).
Proof.
  split.
  - intros DB s cs e rest send_err db He Hall.
    destruct (receiveSyncLoop_transport_error cs e rest He JobInfo.empty "" 0 Hall)
      as [i [Hrun Hlen]].
    split; [exists i; split; [exact Hrun | exact Hlen]|].
    unfold SyncSubmit, bindM, lift. simpl. unfold receiveSyncJobStream.
    rewrite Hrun. reflexivity.
  - intros DB s sched cs e rest send_err db He Hall.
    destruct (receiveAsyncLoop_transport_error cs e rest He JobInfo.empty "" 0 Hall)
      as [i [Hrun Hlen]].
    split; [exists i; split; [exact Hrun | exact Hlen]|].
    unfold AsyncSubmit, bindM, lift. simpl. unfold receiveAsyncJobStream.
    rewrite Hrun. reflexivity.
Qed.

(** A connection reset after the first chunk. *)
Lemma transport_error_aborts_witness :
  SyncSubmit (Mem.service None)
    (mk_ServerStream _
       (chunks [Mem.sync_chunk "a"] ++ inr (ExternalErr "connection reset")
          :: chunks [Mem.sync_chunk "b"]) None)
    Mem.empty
  = (Mem.empty, [], Returned (Some (ExternalErr "connection reset")))
  /\ AsyncSubmit (Mem.service None) RequestFirst
       (mk_ServerStream _
          (chunks [Mem.async_chunk "a"] ++ inr (ExternalErr "connection reset")
             :: chunks [Mem.async_chunk "b"]) None)
       Mem.empty
     = (Mem.empty, [], Returned (Some (ExternalErr "connection reset"))).
Proof.
  split.
  - apply (proj1 transport_error_aborts Mem.DB (Mem.service None)
             [Mem.sync_chunk "a"] (ExternalErr "connection reset")).
    + discriminate.
    + repeat constructor; discriminate.
  - apply (proj2 transport_error_aborts Mem.DB (Mem.service None) RequestFirst
             [Mem.async_chunk "a"] (ExternalErr "connection reset")).
    + discriminate.
    + repeat constructor; discriminate.
Defined.

(** ** Where the receive loop stops *)

Ltac stops_step IH :=
  simpl;
  repeat match goal with
  | |- context [match ?l with [] => _ | _ :: _ => _ end] =>
      destruct l as [|? ?]; [reflexivity|]
  end;
  match goal with
  | |- context [JobInfo.Job ?i] => destruct i as [[?|] ?]
  end;
  simpl; apply IH.

Lemma receiveSyncLoop_stops s x rest rest' :
  stops_sync x ->
  forall i fp sh,
    receiveSyncLoop (s ++ x :: rest) i fp sh
    = receiveSyncLoop (s ++ x :: rest') i fp sh.
Proof.
  intros Hx. induction s as [|[r|e] s IH]; intros i fp sh.
  - destruct x as [r|e]; simpl in *; [rewrite Hx; reflexivity | destruct e; reflexivity].
  - stops_step IH.
  - simpl. destruct e; reflexivity.
Qed.

Lemma receiveAsyncLoop_stops s x rest rest' :
  stops_async x ->
  forall i fp sh,
    receiveAsyncLoop (s ++ x :: rest) i fp sh
    = receiveAsyncLoop (s ++ x :: rest') i fp sh.
Proof.
  intros Hx. induction s as [|[r|e] s IH]; intros i fp sh.
  - destruct x as [r|e]; simpl in *; [rewrite Hx; reflexivity | destruct e; reflexivity].
  - stops_step IH.
  - simpl. destruct e; reflexivity.
Qed.

(** X2. The assemblers read nothing after the first error of [Recv] (the end
    of the stream included) or the first chunk with an empty pipeline: two
    streams that agree up to and including such an element are assembled into
    the same result, whatever follows it. *)
Theorem assembler_stops_reading :
  (forall (s : incoming SyncSubmitRequest.t) (x : SyncSubmitRequest.t + error)
          (rest rest' : incoming SyncSubmitRequest.t),
      stops_sync x ->
      receiveSyncJobStream (s ++ x :: rest) = receiveSyncJobStream (s ++ x :: rest'))
  /\ (forall (s : incoming AsyncSubmitRequest.t) (x : AsyncSubmitRequest.t + error)
          (rest rest' : incoming AsyncSubmitRequest.t),
      stops_async x ->
      receiveAsyncJobStream (s ++ x :: rest) = receiveAsyncJobStream (s ++ x :: rest')).
Proof.
  split; intros s x rest rest' Hx.
  - apply receiveSyncLoop_stops. exact Hx.
  - apply receiveAsyncLoop_stops. exact Hx.
Qed.

(** A chunk sent after the end of the stream is not read. *)
Lemma assembler_stops_reading_witness :
  receiveSyncJobStream
    (chunks [Mem.sync_chunk "a"] ++ inr io_EOF :: chunks [Mem.sync_chunk "b"])
  = receiveSyncJobStream (chunks [Mem.sync_chunk "a"] ++ inr io_EOF :: [])
  /\ receiveAsyncJobStream
       (chunks [Mem.async_chunk "a"] ++ inr io_EOF :: chunks [Mem.async_chunk "b"])
     = receiveAsyncJobStream (chunks [Mem.async_chunk "a"] ++ inr io_EOF :: []).
Proof.
  split.
  - apply (proj1 assembler_stops_reading (chunks [Mem.sync_chunk "a"]) (inr io_EOF)).
    exact I.
  - apply (proj2 assembler_stops_reading (chunks [Mem.async_chunk "a"]) (inr io_EOF)).
    exact I.
Defined.

(** ** Streams of any length *)

Lemma tasks_from_Input name plugin datas :
  forall sh, map Task.Input (tasks_from name plugin sh datas) = datas.
Proof. induction datas as [|d ds IH]; intros sh; simpl; [|rewrite IH]; reflexivity. Qed.

Lemma tasks_from_nth_inv name plugin datas :
  forall sh n k,
    Int32.wrap sh = sh ->
    nth_error (tasks_from name plugin sh datas) n = Some k ->
    exists d,
      nth_error datas n = Some d
      /\ k = new_Task (Int32.wrap (sh + Z.of_nat n)) name d plugin.
Proof.
  intros sh n k Hsh Hk.
  assert (Hlt : (n < length datas)%nat).
  { rewrite <- (tasks_from_length name plugin datas sh).
    apply nth_error_Some. congruence. }
  destruct (nth_error datas n) as [d|] eqn:Hd.
  - exists d. split; [reflexivity|].
    rewrite (tasks_from_nth name plugin datas sh n d Hsh Hd) in Hk. congruence.
  - apply nth_error_None in Hd. lia.
Qed.

Lemma tasks_from_wrapped_assembly name p ps datas j :
  wrapped_assembly name (p :: ps) datas
    (JobInfo.mk (Some (Job.set_Size (Int32.of_len (length datas)) j))
       (tasks_from name p 0 datas)).
Proof.
  unfold wrapped_assembly. simpl. split; [|split].
  - apply tasks_from_Input.
  - eexists. split; reflexivity.
  - intros n k Hk.
    destruct (tasks_from_nth_inv name p datas 0 n k eq_refl Hk) as [d [_ ->]].
    simpl. repeat split; reflexivity.
Qed.

(** X3. For a non-empty chunk sequence of any length whose chunks all have a
    non-empty pipeline, both assemblers return without error; no chunk is
    dropped or reordered (the inputs of the tasks are the payloads in order);
    task [n] has the shard index [n] wrapped to [int32] and the name
    [<jobName>-<that index>], the first plugin of the first chunk's pipeline,
    and neither identifier nor job identifier yet; the job's size is the
    number of chunks wrapped to [int32]. *)
Theorem assembled_tasks_any_length :
  (forall (cs : list SyncSubmitRequest.t) (first : SyncSubmitRequest.t),
      hd_error cs = Some first ->
      Forall (fun r => SyncSubmitRequest.PluginSet r <> []) cs ->
      exists i,
        receiveSyncJobStream (chunks cs) = Returned (i, None)
        /\ wrapped_assembly (SyncSubmitRequest.Name first)
             (SyncSubmitRequest.PluginSet first)
             (map SyncSubmitRequest.Data cs) i)
  /\ (forall (cs : list AsyncSubmitRequest.t) (first : AsyncSubmitRequest.t),
      hd_error cs = Some first ->
      Forall (fun r => AsyncSubmitRequest.PluginSet r <> []) cs ->
      exists i,
        receiveAsyncJobStream (chunks cs) = Returned (i, None)
        /\ wrapped_assembly (AsyncSubmitRequest.Name first)
             (AsyncSubmitRequest.PluginSet first)
             (map AsyncSubmitRequest.Data cs) i).
Proof.
  split; intros [|c cs] first Hhd Hall; try discriminate;
    injection Hhd as <-; inversion Hall as [|? ? Hc Hcs]; subst.
  - destruct (SyncSubmitRequest.PluginSet c) as [|p ps] eqn:Hp; [congruence|].
    eexists. split.
    + apply (receiveSyncJobStream_chunks c cs p ps Hp Hcs).
    + pose proof (tasks_from_wrapped_assembly (SyncSubmitRequest.Name c) p ps
                    (map SyncSubmitRequest.Data (c :: cs)) (sync_Job c)) as H.
      rewrite length_map in H. exact H.
  - destruct (AsyncSubmitRequest.PluginSet c) as [|p ps] eqn:Hp; [congruence|].
    eexists. split.
    + apply (receiveAsyncJobStream_chunks c cs p ps Hp Hcs).
    + pose proof (tasks_from_wrapped_assembly (AsyncSubmitRequest.Name c) p ps
                    (map AsyncSubmitRequest.Data (c :: cs)) (async_Job c)) as H.
      rewrite length_map in H. exact H.
Qed.

(** Two chunks of the spec's scenario. *)
Lemma assembled_tasks_any_length_witness :
  exists i,
    receiveSyncJobStream (chunks [Mem.sync_chunk "a"; Mem.sync_chunk "b"])
    = Returned (i, None)
    /\ wrapped_assembly "job1" ["p1"; "p2"] ["a"; "b"] i.
Proof.
  apply (proj1 assembled_tasks_any_length
           [Mem.sync_chunk "a"; Mem.sync_chunk "b"] (Mem.sync_chunk "a")).
  - reflexivity.
  - repeat constructor; discriminate.
Defined.

(** ** The three outcomes of an assembly *)

Lemma pipelines_cases {A : Type} (pipeline : A -> list string) (cs : list A) :
  Forall (fun r => pipeline r <> []) cs \/ Exists (fun r => pipeline r = []) cs.
Proof.
  induction cs as [|c cs [IH|IH]].
  - left. constructor.
  - destruct (pipeline c) as [|p ps] eqn:Hp.
    + right. apply Exists_cons_hd. exact Hp.
    + left. constructor; [congruence | exact IH].
  - right. apply Exists_cons_tl. exact IH.
Qed.

Lemma pipelines_exclusive {A : Type} (pipeline : A -> list string) (cs : list A) :
  Forall (fun r => pipeline r <> []) cs ->
  Exists (fun r => pipeline r = []) cs -> False.
Proof.
  intros Hall Hex. apply Exists_exists in Hex. destruct Hex as [r [Hin Hr]].
  rewrite Forall_forall in Hall. exact (Hall r Hin Hr).
Qed.

Lemma receiveSyncJobStream_cases cs :
  (cs = [] /\ receiveSyncJobStream (chunks cs) = Panicked NilDereference)
  \/ (Exists (fun r => SyncSubmitRequest.PluginSet r = []) cs
      /\ exists i,
           receiveSyncJobStream (chunks cs)
           = Returned (i, Some (ToGrpcErr errCode.ErrPluginSetEmpty)))
  \/ (cs <> [] /\ Forall (fun r => SyncSubmitRequest.PluginSet r <> []) cs
      /\ exists i, receiveSyncJobStream (chunks cs) = Returned (i, None)).
Proof.
  destruct cs as [|c cs]; [left; split; reflexivity|]. right.
  destruct (pipelines_cases SyncSubmitRequest.PluginSet (c :: cs)) as [Hall|Hex].
  - right. split; [discriminate|]. split; [exact Hall|].
    inversion Hall as [|? ? Hc Hcs]; subst.
    destruct (SyncSubmitRequest.PluginSet c) as [|p ps] eqn:Hp; [congruence|].
    eexists. apply (receiveSyncJobStream_chunks c cs p ps Hp Hcs).
  - left. split; [exact Hex|].
    apply (receiveSyncLoop_empty_pipeline (c :: cs) JobInfo.empty "" 0 Hex).
Qed.

Lemma receiveAsyncJobStream_cases cs :
  (cs = [] /\ receiveAsyncJobStream (chunks cs) = Panicked NilDereference)
  \/ (Exists (fun r => AsyncSubmitRequest.PluginSet r = []) cs
      /\ exists i,
           receiveAsyncJobStream (chunks cs)
           = Returned (i, Some (ToGrpcErr errCode.ErrPluginSetEmpty)))
  \/ (cs <> [] /\ Forall (fun r => AsyncSubmitRequest.PluginSet r <> []) cs
      /\ exists i, receiveAsyncJobStream (chunks cs) = Returned (i, None)).
Proof.
  destruct cs as [|c cs]; [left; split; reflexivity|]. right.
  destruct (pipelines_cases AsyncSubmitRequest.PluginSet (c :: cs)) as [Hall|Hex].
  - right. split; [discriminate|]. split; [exact Hall|].
    inversion Hall as [|? ? Hc Hcs]; subst.
    destruct (AsyncSubmitRequest.PluginSet c) as [|p ps] eqn:Hp; [congruence|].
    eexists. apply (receiveAsyncJobStream_chunks c cs p ps Hp Hcs).
  - left. split; [exact Hex|].
    apply (receiveAsyncLoop_empty_pipeline (c :: cs) JobInfo.empty "" 0 Hex).
Qed.

Ltac outcome_iffs Hexcl :=
  repeat split; intros;
  repeat match goal with
  | H : exists _, _ |- _ => destruct H
  | H : _ /\ _ |- _ => destruct H
  end;
  try discriminate; try congruence; try assumption;
  try (exfalso; eauto using Hexcl; fail);
  try (subst; match goal with H : Exists _ [] |- _ => inversion H end);
  try (repeat eexists; reflexivity).

(** X4. On a chunk sequence that ends cleanly an assembler has exactly three
    outcomes: it returns an aggregate without error exactly when the sequence
    is non-empty and every pipeline is non-empty; it returns the
    plugin-set-empty error exactly when some chunk has an empty pipeline; and
    it panics on a nil dereference exactly when the sequence is empty. *)
Theorem assembly_outcomes :
  (forall cs : list SyncSubmitRequest.t,
      ((exists i, receiveSyncJobStream (chunks cs) = Returned (i, None))
       <-> cs <> [] /\ Forall (fun r => SyncSubmitRequest.PluginSet r <> []) cs)
      /\ ((exists i,
             receiveSyncJobStream (chunks cs)
             = Returned (i, Some (ToGrpcErr errCode.ErrPluginSetEmpty)))
          <-> Exists (fun r => SyncSubmitRequest.PluginSet r = []) cs)
      /\ (receiveSyncJobStream (chunks cs) = Panicked NilDereference <-> cs = []))
  /\ (forall cs : list AsyncSubmitRequest.t,
      ((exists i, receiveAsyncJobStream (chunks cs) = Returned (i, None))
       <-> cs <> [] /\ Forall (fun r => AsyncSubmitRequest.PluginSet r <> []) cs)
      /\ ((exists i,
             receiveAsyncJobStream (chunks cs)
             = Returned (i, Some (ToGrpcErr errCode.ErrPluginSetEmpty)))
          <-> Exists (fun r => AsyncSubmitRequest.PluginSet r = []) cs)
      /\ (receiveAsyncJobStream (chunks cs) = Panicked NilDereference <-> cs = [])).
Proof.
  split; intros cs.
  - pose proof (pipelines_exclusive SyncSubmitRequest.PluginSet cs) as Hexcl.
    destruct (receiveSyncJobStream_cases cs)
      as [[Hnil Hrun]|[[Hex [i Hrun]]|[Hne [Hall [i Hrun]]]]];
      rewrite Hrun; outcome_iffs Hexcl.
  - pose proof (pipelines_exclusive AsyncSubmitRequest.PluginSet cs) as Hexcl.
    destruct (receiveAsyncJobStream_cases cs)
      as [[Hnil Hrun]|[[Hex [i Hrun]]|[Hne [Hall [i Hrun]]]]];
      rewrite Hrun; outcome_iffs Hexcl.
Qed.

(** ** The job record of an assembled aggregate *)

Ltac sized_step IH H :=
  simpl in H;
  match type of H with
  | context [match ?l with [] => _ | _ :: _ => _ end] =>
      destruct l as [|? ?]; [discriminate H|]
  end;
  simpl in H; apply IH in H;
  unfold JobInfo.AppendSafeTask in H; simpl in H;
  rewrite length_app in H; simpl in H;
  split; [apply H | lia].

Lemma receiveSyncLoop_sized s :
  forall j acc fp sh i,
    receiveSyncLoop s (JobInfo.mk (Some j) acc) fp sh = Returned (i, None) ->
    JobInfo.Job i = Some (Job.set_Size (Int32.of_len (length (JobInfo.TaskList i))) j)
    /\ (length acc <= length (JobInfo.TaskList i))%nat.
Proof.
  induction s as [|[r|e] s IH]; intros j acc fp sh i H.
  - inversion H; subst. simpl. split; [reflexivity | lia].
  - sized_step IH H.
  - destruct e; try discriminate H. inversion H; subst. simpl.
    split; [reflexivity | lia].
Qed.

Lemma receiveAsyncLoop_sized s :
  forall j acc fp sh i,
    receiveAsyncLoop s (JobInfo.mk (Some j) acc) fp sh = Returned (i, None) ->
    JobInfo.Job i = Some (Job.set_Size (Int32.of_len (length (JobInfo.TaskList i))) j)
    /\ (length acc <= length (JobInfo.TaskList i))%nat.
Proof.
  induction s as [|[r|e] s IH]; intros j acc fp sh i H.
  - inversion H; subst. simpl. split; [reflexivity | lia].
  - sized_step IH H.
  - destruct e; try discriminate H. inversion H; subst. simpl.
    split; [reflexivity | lia].
Qed.

(** X5. Whenever an assembler returns without error, on any stream, the
    stream starts with a chunk and the job record comes from that chunk: its
    name, its pipeline joined with commas, its label, source and exception
    policy; the size is the [int32] of the number of tasks, of which there is
    at least one; identifier, status and result are still zero. *)
Theorem assembled_job_record :
  (forall (s : incoming SyncSubmitRequest.t) (i : JobInfo.t),
      receiveSyncJobStream s = Returned (i, None) ->
      exists first rest,
        s = inl first :: rest
        /\ assembled_from (SyncSubmitRequest.Name first)
             (SyncSubmitRequest.PluginSet first)
             (SyncSubmitRequest.Label first)
             (SyncSubmitRequest.Source first)
             (SyncSubmitRequest.TaskExceptionOperation first) i)
  /\ (forall (s : incoming AsyncSubmitRequest.t) (i : JobInfo.t),
      receiveAsyncJobStream s = Returned (i, None) ->
      exists first rest,
        s = inl first :: rest
        /\ assembled_from (AsyncSubmitRequest.Name first)
             (AsyncSubmitRequest.PluginSet first)
             (AsyncSubmitRequest.Label first)
             (AsyncSubmitRequest.Source first)
             (AsyncSubmitRequest.TaskExceptionOperation first) i).
Proof.
  split; intros s i H.
  - unfold receiveSyncJobStream in H. destruct s as [|[r|e] s]; simpl in H.
    + discriminate H.
    + destruct (SyncSubmitRequest.PluginSet r) as [|p ps] eqn:Hp; [discriminate H|].
      simpl in H. apply receiveSyncLoop_sized in H. destruct H as [Hj Hlen].
      exists r, s. split; [reflexivity|]. unfold assembled_from. split.
      * intros Hnil. rewrite Hnil in Hlen. simpl in Hlen. lia.
      * eexists. split; [exact Hj|]. simpl. rewrite Hp. repeat split; reflexivity.
    + destruct e; discriminate H.
  - unfold receiveAsyncJobStream in H. destruct s as [|[r|e] s]; simpl in H.
    + discriminate H.
    + destruct (AsyncSubmitRequest.PluginSet r) as [|p ps] eqn:Hp; [discriminate H|].
      simpl in H. apply receiveAsyncLoop_sized in H. destruct H as [Hj Hlen].
      exists r, s. split; [reflexivity|]. unfold assembled_from. split.
      * intros Hnil. rewrite Hnil in Hlen. simpl in Hlen. lia.
      * eexists. split; [exact Hj|]. unfold async_Job.
        destruct (AsyncSubmitRequest.IsNotify r); simpl; rewrite Hp;
          repeat split; reflexivity.
    + destruct e; discriminate H.
Qed.

(** A stream of two chunks closed by an explicit [io.EOF]. *)
Lemma assembled_job_record_witness :
  exists first rest,
    chunks [Mem.sync_chunk "a"; Mem.sync_chunk "b"] ++ [inr io_EOF]
    = inl first :: rest
    /\ assembled_from (SyncSubmitRequest.Name first)
         (SyncSubmitRequest.PluginSet first)
         (SyncSubmitRequest.Label first)
         (SyncSubmitRequest.Source first)
         (SyncSubmitRequest.TaskExceptionOperation first)
         (JobInfo.mk (Some Mem.job1) Mem.tasks_ab).
Proof.
  apply (proj1 assembled_job_record
           (chunks [Mem.sync_chunk "a"; Mem.sync_chunk "b"] ++ [inr io_EOF])).
  reflexivity.
Defined.

(** ** Shard indices and task names are unique *)

Lemma wrap_inj a b :
  0 <= a < Int32.modulus -> 0 <= b < Int32.modulus ->
  Int32.wrap a = Int32.wrap b -> a = b.
Proof.
  unfold Int32.wrap, Int32.modulus. intros Ha Hb H.
  assert (Hmod : forall x, 0 <= x < 2 ^ 32 ->
            (x + 2 ^ 31) mod 2 ^ 32 = x + 2 ^ 31 \/
            (x + 2 ^ 31) mod 2 ^ 32 = x + 2 ^ 31 - 2 ^ 32).
  { intros x Hx. destruct (Z_lt_ge_dec x (2 ^ 31)) as [Hlt|Hge].
    - left. apply Z.mod_small. lia.
    - right. replace (x + 2 ^ 31) with (x - 2 ^ 31 + 1 * 2 ^ 32) by lia.
      rewrite Z_mod_plus_full. rewrite Z.mod_small; lia. }
  pose proof (Z.mod_pos_bound (a + 2 ^ 31) (2 ^ 32) ltac:(lia)) as Ba.
  pose proof (Z.mod_pos_bound (b + 2 ^ 31) (2 ^ 32) ltac:(lia)) as Bb.
  destruct (Hmod a Ha) as [Ea|Ea], (Hmod b Hb) as [Eb|Eb]; lia.
Qed.

Lemma to_int_not_nil z : Z.to_int z <> Decimal.Pos Decimal.Nil /\ Z.to_int z <> Decimal.Neg Decimal.Nil.
Proof.
  destruct z as [|p|p]; simpl; split; try discriminate;
    intros H; injection H as H; exact (DecimalPos.Unsigned.to_uint_nonnil p H).
Qed.

(** The decimal rendering can be read back. *)
Lemma fmt_d_inj a b : fmt_d a = fmt_d b -> a = b.
Proof.
  unfold fmt_d. intros H.
  apply DecimalZ.to_int_inj.
  assert (Hs : Some (Z.to_int a) = Some (Z.to_int b)).
  { destruct (to_int_not_nil a) as [Ha1 Ha2], (to_int_not_nil b) as [Hb1 Hb2].
    rewrite <- (NilZero.isi (Z.to_int a) Ha1 Ha2), <- (NilZero.isi (Z.to_int b) Hb1 Hb2).
    rewrite H. reflexivity. }
  congruence.
Qed.

Lemma append_inj_r (s x y : string) : (s ++ x)%string = (s ++ y)%string -> x = y.
Proof.
  induction s as [|c s IH]; simpl; intros H; [exact H|].
  injection H as H. exact (IH H).
Qed.

Lemma Sprintf_s_d_inj s a b : Sprintf_s_d s a = Sprintf_s_d s b -> a = b.
Proof.
  unfold Sprintf_s_d. intros H. apply append_inj_r in H.
  simpl in H. injection H as H. exact (fmt_d_inj a b H).
Qed.

Lemma tasks_from_NoDup name plugin datas :
  Z.of_nat (length datas) <= Int32.modulus ->
  NoDup (map Task.Sharding (tasks_from name plugin 0 datas))
  /\ NoDup (map Task.Name (tasks_from name plugin 0 datas)).
Proof.
  intros Hn.
  assert (Hidx : forall a b ka kb,
             nth_error (tasks_from name plugin 0 datas) a = Some ka ->
             nth_error (tasks_from name plugin 0 datas) b = Some kb ->
             Task.Sharding ka = Task.Sharding kb \/ Task.Name ka = Task.Name kb ->
             a = b).
  { intros a b ka kb Ha Hb Heq.
    assert (La : (a < length datas)%nat).
    { rewrite <- (tasks_from_length name plugin datas 0). apply nth_error_Some. congruence. }
    assert (Lb : (b < length datas)%nat).
    { rewrite <- (tasks_from_length name plugin datas 0). apply nth_error_Some. congruence. }
    destruct (tasks_from_nth_inv name plugin datas 0 a ka eq_refl Ha) as [da [_ ->]].
    destruct (tasks_from_nth_inv name plugin datas 0 b kb eq_refl Hb) as [db [_ ->]].
    simpl in Heq.
    assert (Hw : Int32.wrap (Z.of_nat a) = Int32.wrap (Z.of_nat b)).
    { destruct Heq as [Heq|Heq]; [exact Heq | exact (Sprintf_s_d_inj _ _ _ Heq)]. }
    apply wrap_inj in Hw; unfold Int32.modulus in *; lia. }
  split; apply NoDup_nth_error; intros a b Ha Heq;
    rewrite length_map in Ha; rewrite !nth_error_map in Heq;
    destruct (nth_error (tasks_from name plugin 0 datas) a) as [ka|] eqn:Ea;
    try (apply nth_error_None in Ea; lia);
    destruct (nth_error (tasks_from name plugin 0 datas) b) as [kb|] eqn:Eb;
    try discriminate Heq;
    simpl in Heq; injection Heq as Heq;
    apply (Hidx a b ka kb Ea Eb); auto.
Qed.

(** X6. For a non-empty chunk sequence of at most [2^32] chunks with non-empty
    pipelines, no two tasks of the assembled aggregate have the same shard
    index, and no two have the same name. *)
Theorem task_names_distinct :
  (forall cs : list SyncSubmitRequest.t,
      cs <> [] ->
      Forall (fun r => SyncSubmitRequest.PluginSet r <> []) cs ->
      Z.of_nat (length cs) <= Int32.modulus ->
      exists i,
        receiveSyncJobStream (chunks cs) = Returned (i, None)
        /\ NoDup (map Task.Sharding (JobInfo.TaskList i))
        /\ NoDup (map Task.Name (JobInfo.TaskList i)))
  /\ (forall cs : list AsyncSubmitRequest.t,
      cs <> [] ->
      Forall (fun r => AsyncSubmitRequest.PluginSet r <> []) cs ->
      Z.of_nat (length cs) <= Int32.modulus ->
      exists i,
        receiveAsyncJobStream (chunks cs) = Returned (i, None)
        /\ NoDup (map Task.Sharding (JobInfo.TaskList i))
        /\ NoDup (map Task.Name (JobInfo.TaskList i))).
Proof.
  split; intros [|c cs] Hne Hall Hn; try congruence;
    inversion Hall as [|? ? Hc Hcs]; subst.
  - destruct (SyncSubmitRequest.PluginSet c) as [|p ps] eqn:Hp; [congruence|].
    eexists. split; [apply (receiveSyncJobStream_chunks c cs p ps Hp Hcs)|].
    apply tasks_from_NoDup. rewrite length_map. exact Hn.
  - destruct (AsyncSubmitRequest.PluginSet c) as [|p ps] eqn:Hp; [congruence|].
    eexists. split; [apply (receiveAsyncJobStream_chunks c cs p ps Hp Hcs)|].
    apply tasks_from_NoDup. rewrite length_map. exact Hn.
Qed.

(** Three chunks of the spec's scenario. *)
Lemma task_names_distinct_witness :
  exists i,
    receiveSyncJobStream
      (chunks [Mem.sync_chunk "a"; Mem.sync_chunk "b"; Mem.sync_chunk "c"])
    = Returned (i, None)
    /\ NoDup (map Task.Sharding (JobInfo.TaskList i))
    /\ NoDup (map Task.Name (JobInfo.TaskList i)).
Proof.
  apply (proj1 task_names_distinct
           [Mem.sync_chunk "a"; Mem.sync_chunk "b"; Mem.sync_chunk "c"]).
  - discriminate.
  - repeat constructor; discriminate.
  - vm_compute. discriminate.
Defined.

(** ** The calls of persistence and of the reload *)

Ltac run_step :=
  match goal with
  | |- context [match ?x with _ => _ end] =>
      lazymatch x with
      | context [match _ with _ => _ end] => fail
      | _ => destruct x eqn:?
      end
  end.

Ltac run := repeat (run_step; simpl; rewrite ?stamp_JobId_Some; simpl).

Ltac unfold_service :=
  unfold SyncSubmit, AsyncSubmit, go_StartJob, persistence, reloadJobInfo, Transaction,
    bindM, call_Save, call_BatchSave, call_FindById, call_List, call_StartJob,
    return_if_err, lift, ret, trace_of, outcome_of, db_of.

(** X7. For every aggregate (its job may be nil) and whatever the
    repositories return, [persistence] makes one of three sequences of calls:
    [Save] alone, when it fails or when the job is nil and the loop over a
    non-empty task list dereferences it; [Save] and a failing [BatchSave];
    or [Save] and [BatchSave] without error. Only the third commits; in the
    other two the transaction rolls back and the storage is as before the
    call. [BatchSave] is never called after a failed [Save]. *)
Theorem persistence_all_or_nothing :
  forall (DB : Type) (s : jobService DB) (i : JobInfo.t) (db : DB),
    (exists save_err,
        trace_of (persistence s i db)
        = [TxBegin; JobRepo_Save (JobInfo.Job i) save_err; TxRollback]
        /\ db_of (persistence s i db) = db
        /\ ((exists e i',
               save_err = Some e
               /\ outcome_of (persistence s i db) = Returned (i', Some e))
            \/ (save_err = None
                /\ JobInfo.Job i = None
                /\ JobInfo.TaskList i <> []
                /\ outcome_of (persistence s i db) = Panicked NilDereference)))
    \/ (exists tasks e i',
          trace_of (persistence s i db)
          = [TxBegin; JobRepo_Save (JobInfo.Job i) None;
             TaskRepo_BatchSave tasks (Some e); TxRollback]
          /\ db_of (persistence s i db) = db
          /\ outcome_of (persistence s i db) = Returned (i', Some e))
    \/ (exists tasks i',
          trace_of (persistence s i db)
          = [TxBegin; JobRepo_Save (JobInfo.Job i) None;
             TaskRepo_BatchSave tasks None; TxCommit]
          /\ outcome_of (persistence s i db) = Returned (i', None)).
Proof.
  intros DB s i db. unfold_service.
  destruct i as [[j|] tl]; simpl.
  - destruct (JobRepository.Save (jobRepo s) db j) as [[tx1 j1] [e|]]; simpl.
    + left. eexists. repeat split. left. do 2 eexists. split; reflexivity.
    + rewrite stamp_JobId_Some. simpl.
      destruct (TaskRepository.BatchSave (taskRepo s) tx1 _) as [[tx2 l2] [e|]]; simpl.
      * right. left. do 3 eexists. repeat split.
      * right. right. do 2 eexists. repeat split.
  - destruct (JobRepository.Save_nil (jobRepo s) db) as [tx1 [e|]]; simpl.
    + left. eexists. repeat split. left. do 2 eexists. split; reflexivity.
    + destruct tl as [|k tl]; simpl.
      * destruct (TaskRepository.BatchSave (taskRepo s) tx1 []) as [[tx2 l2] [e|]]; simpl.
        -- right. left. do 3 eexists. repeat split.
        -- right. right. do 2 eexists. repeat split.
      * left. eexists. repeat split. right. repeat split. discriminate.
Qed.

(** X8. [reloadJobInfo] panics exactly when it is given a nil pointer or an
    aggregate whose job is nil: the guard that replaces a nil pointer by an
    empty aggregate is followed by the read of [jobInfo.Job.Id]. The panic
    comes before any read of the storage. *)
Theorem reloadJobInfo_panics_iff :
  forall (DB : Type) (s : jobService DB) (i : option JobInfo.t) (db : DB),
    ((exists p, outcome_of (reloadJobInfo s i db) = Panicked p)
     <-> (i = None \/ exists i', i = Some i' /\ JobInfo.Job i' = None))
    /\ ((exists p, outcome_of (reloadJobInfo s i db) = Panicked p) ->
        reloadJobInfo s i db = (db, [], Panicked NilDereference)).
Proof.
  intros DB s i db. unfold_service.
  destruct i as [[[j|] tl]|]; simpl.
  - destruct (JobRepository.FindById (jobRepo s) db (Job.Id j)) as [[j'|] [e|]];
      simpl;
      try destruct (TaskRepository.List (taskRepo s) db (Job.Id j')) as [l err];
      simpl; (split; [split|]);
      try (intros [p H]; discriminate H);
      intros [H|[i' [H H']]]; try discriminate H;
      injection H as <-; discriminate H'.
  - split; [split|]; try reflexivity.
    + intros _. right. eexists. split; reflexivity.
    + intros _. eexists. reflexivity.
  - split; [split|]; try reflexivity.
    + intros _. left. reflexivity.
    + intros _. eexists. reflexivity.
Qed.

(** ** The calls of a submission *)

(** X9. A synchronous submission that returns no error has made exactly
    eight calls, in this order: begin, [Save] of the assembled job with
    [IsAsync = 0], [BatchSave] of the tasks carrying the identifier [Save]
    assigned, commit, [FindById] by that identifier, [List] by the identifier
    of the job found, [StartJob] on the aggregate read (it returned no error),
    and [SendAndClose] of the job as [StartJob] left it. *)
Theorem SyncSubmit_success_path :
  forall (DB : Type) (s : jobService DB)
         (stream : ServerStream SyncSubmitRequest.t) (db : DB),
    outcome_of (SyncSubmit s stream db) = Returned None ->
    sync_success_path s stream db.
Proof.
  intros DB s stream db. unfold sync_success_path. unfold_service.
  destruct (receiveSyncJobStream (inbox stream)) as [[i0 [e|]]|p]; simpl;
    try discriminate.
  destruct (JobInfo.Job i0) as [j0|] eqn:Hj0; simpl; [|discriminate].
  destruct (JobRepository.Save (jobRepo s) db (Job.set_IsAsync 0 j0))
    as [[tx1 j1] [e|]] eqn:Hsave; simpl; [discriminate|].
  rewrite stamp_JobId_Some. simpl.
  destruct (TaskRepository.BatchSave (taskRepo s) tx1 _)
    as [[tx2 tasks2] [e|]] eqn:Hbatch; simpl; [discriminate|].
  destruct (JobRepository.FindById (jobRepo s) tx2 (Job.Id j1))
    as [[j2|] [e|]] eqn:Hfind; simpl; try discriminate.
  destruct (TaskRepository.List (taskRepo s) tx2 (Job.Id j2))
    as [tasks3 [e|]] eqn:Hlist; simpl; [discriminate|].
  destruct (ApplicationContext.StartJob (appCtx s) tx2 _)
    as [[db3 after] [e|]] eqn:Hstart; simpl.
  - destruct (JobInfo.Job after); simpl; discriminate.
  - destruct (JobInfo.Job after) as [j3|] eqn:Hj3; simpl; [|discriminate].
    intros Hout. injection Hout as Hsend.
    exists i0, j0, tx1, j1, tx2, tasks2, j2, tasks3, after, j3.
    rewrite Hsend. repeat split; try reflexivity; assumption.
Qed.

(** The synchronous submission of two chunks on the in-memory storage. *)
Lemma SyncSubmit_success_path_witness :
  sync_success_path (Mem.service None) sample_sync_stream Mem.empty.
Proof.
  apply (SyncSubmit_success_path Mem.DB (Mem.service None) sample_sync_stream
           Mem.empty).
  reflexivity.
Defined.

(** X10. An asynchronous submission that returns no error has made, in this
    order: begin, [Save] of the assembled job (whose [IsAsync] is 1),
    [BatchSave] of the tasks carrying the identifier [Save] assigned, commit,
    [FindById] by that identifier, [List] by the identifier of the job found,
    the [go] statement on the aggregate read, and [SendAndClose]; when the
    goroutine runs first its call of the engine comes before the response,
    and whatever error it returns the submission still returns none. *)
Theorem AsyncSubmit_success_path :
  forall (DB : Type) (s : jobService DB) (sched : schedule)
         (stream : ServerStream AsyncSubmitRequest.t) (db : DB),
    outcome_of (AsyncSubmit s sched stream db) = Returned None ->
    async_success_path s sched stream db.
Proof.
  intros DB s sched stream db. unfold async_success_path. unfold_service.
  destruct (receiveAsyncJobStream (inbox stream)) as [[i0 [e|]]|p] eqn:Hrecv; simpl;
    try discriminate.
  destruct (receiveAsyncJobStream_ok _ _ Hrecv)
    as (first & rest & j0 & _ & Hj0 & _ & Hasync & _).
  rewrite Hj0. simpl.
  destruct (JobRepository.Save (jobRepo s) db j0)
    as [[tx1 j1] [e|]] eqn:Hsave; simpl; [discriminate|].
  rewrite stamp_JobId_Some. simpl.
  destruct (TaskRepository.BatchSave (taskRepo s) tx1 _)
    as [[tx2 tasks2] [e|]] eqn:Hbatch; simpl; [discriminate|].
  destruct (JobRepository.FindById (jobRepo s) tx2 (Job.Id j1))
    as [[j2|] [e|]] eqn:Hfind; simpl; try discriminate.
  destruct (TaskRepository.List (taskRepo s) tx2 (Job.Id j2))
    as [tasks3 [e|]] eqn:Hlist; simpl; [discriminate|].
  destruct sched; simpl.
  - destruct (ApplicationContext.StartJob (appCtx s) tx2 _)
      as [[db3 after] err] eqn:Hstart; simpl.
    destruct (JobInfo.Job after) as [j3|] eqn:Hj3; simpl; [|discriminate].
    intros Hout. injection Hout as Hsend.
    exists i0, j0, tx1, j1, tx2, tasks2, j2, tasks3,
      [Engine_StartJob (JobInfo.mk (Some j2) tasks3) after err], j3.
    rewrite Hsend. repeat split; try reflexivity; try assumption.
    exists after, err. split; [reflexivity | assumption].
  - intros Hout. injection Hout as Hsend.
    exists i0, j0, tx1, j1, tx2, tasks2, j2, tasks3, [], j2.
    rewrite Hsend. repeat split; try reflexivity; assumption.
Qed.

(** The asynchronous submission of two chunks, the engine failing before the
    response. *)
Lemma AsyncSubmit_success_path_witness :
  async_success_path (Mem.service (Some (ExternalErr "plugin crashed")))
    GoroutineFirst sample_async_stream Mem.empty.
Proof.
  apply (AsyncSubmit_success_path Mem.DB
           (Mem.service (Some (ExternalErr "plugin crashed")))
           GoroutineFirst sample_async_stream Mem.empty).
  reflexivity.
Defined.

Ltac in_cases H :=
  simpl in H;
  repeat (destruct H as [H|H]; [try discriminate H|]);
  try contradiction.

Ltac find_in := simpl; solve [repeat (first [left; reflexivity | right])].

Ltac close_run H :=
  in_cases H; inversion H; subst; clear H;
  repeat split; repeat eexists; try reflexivity; try eassumption.

(** X11. When [Save] or [BatchSave] returns an error during a submission,
    synchronous or asynchronous, the submission returns that very error, the
    storage is as before the request, and the calls made are those of the
    rolled back transaction alone: no reload, no engine, no response. *)
Theorem storage_write_failure_aborts :
  (forall (DB : Type) (s : jobService DB)
          (stream : ServerStream SyncSubmitRequest.t) (db : DB),
      (forall arg e,
          In (JobRepo_Save arg (Some e)) (trace_of (SyncSubmit s stream db)) ->
          SyncSubmit s stream db
          = (db, [TxBegin; JobRepo_Save arg (Some e); TxRollback], Returned (Some e)))
      /\ (forall tasks e,
          In (TaskRepo_BatchSave tasks (Some e)) (trace_of (SyncSubmit s stream db)) ->
          exists arg,
            SyncSubmit s stream db
            = (db,
               [TxBegin; JobRepo_Save arg None;
                TaskRepo_BatchSave tasks (Some e); TxRollback],
               Returned (Some e))))
  /\ (forall (DB : Type) (s : jobService DB) (sched : schedule)
          (stream : ServerStream AsyncSubmitRequest.t) (db : DB),
      (forall arg e,
          In (JobRepo_Save arg (Some e)) (trace_of (AsyncSubmit s sched stream db)) ->
          AsyncSubmit s sched stream db
          = (db, [TxBegin; JobRepo_Save arg (Some e); TxRollback], Returned (Some e)))
      /\ (forall tasks e,
          In (TaskRepo_BatchSave tasks (Some e))
            (trace_of (AsyncSubmit s sched stream db)) ->
          exists arg,
            AsyncSubmit s sched stream db
            = (db,
               [TxBegin; JobRepo_Save arg None;
                TaskRepo_BatchSave tasks (Some e); TxRollback],
               Returned (Some e)))).
Proof.
  split; intros; unfold_service; run;
    (split; [intros arg e' H | intros tasks e' H]); close_run H.
Qed.

(** The batch save fails on the in-memory storage. *)
Lemma storage_write_failure_aborts_witness :
  exists arg,
    SyncSubmit (Mem.service None) sample_sync_stream Mem.broken_BatchSave
    = (Mem.broken_BatchSave,
       [TxBegin; JobRepo_Save arg None;
        TaskRepo_BatchSave (map (Task.set_JobId 1) Mem.tasks_ab)
          (Some (ExternalErr "disk full"));
        TxRollback],
       Returned (Some (ExternalErr "disk full"))).
Proof.
  apply (proj2 (proj1 storage_write_failure_aborts Mem.DB (Mem.service None)
                  sample_sync_stream Mem.broken_BatchSave)).
  simpl. right. right. left. reflexivity.
Defined.

(** X12. When a read of the reload fails during a submission, synchronous or
    asynchronous ([FindById] or [List] returns an error, or [FindById] finds
    no job), the submission returns that error (the job-not-found condition
    in the last case) after the transaction has been committed: the storage
    stays as [BatchSave] left it, the failed read is the last call, and
    neither the engine nor [SendAndClose] is called. *)
Theorem reload_failure_after_commit :
  (forall (DB : Type) (s : jobService DB)
          (stream : ServerStream SyncSubmitRequest.t) (db : DB),
      (forall id res e,
          In (JobRepo_FindById id res (Some e)) (trace_of (SyncSubmit s stream db)) ->
          outcome_of (SyncSubmit s stream db) = Returned (Some e)
          /\ exists arg tasks tx1 tasks2,
               trace_of (SyncSubmit s stream db)
               = [TxBegin; JobRepo_Save arg None; TaskRepo_BatchSave tasks None;
                  TxCommit; JobRepo_FindById id res (Some e)]
               /\ TaskRepository.BatchSave (taskRepo s) tx1 tasks
                  = (db_of (SyncSubmit s stream db), tasks2, None))
      /\ (forall id,
          In (JobRepo_FindById id None None) (trace_of (SyncSubmit s stream db)) ->
          outcome_of (SyncSubmit s stream db)
          = Returned (Some (ToGrpcErr errCode.ErrJobNotFound))
          /\ exists arg tasks tx1 tasks2,
               trace_of (SyncSubmit s stream db)
               = [TxBegin; JobRepo_Save arg None; TaskRepo_BatchSave tasks None;
                  TxCommit; JobRepo_FindById id None None]
               /\ TaskRepository.BatchSave (taskRepo s) tx1 tasks
                  = (db_of (SyncSubmit s stream db), tasks2, None))
      /\ (forall id found e,
          In (TaskRepo_List id found (Some e)) (trace_of (SyncSubmit s stream db)) ->
          outcome_of (SyncSubmit s stream db) = Returned (Some e)
          /\ exists arg tasks id' j2 tx1 tasks2,
               trace_of (SyncSubmit s stream db)
               = [TxBegin; JobRepo_Save arg None; TaskRepo_BatchSave tasks None;
                  TxCommit; JobRepo_FindById id' (Some j2) None;
                  TaskRepo_List id found (Some e)]
               /\ TaskRepository.BatchSave (taskRepo s) tx1 tasks
                  = (db_of (SyncSubmit s stream db), tasks2, None)))
  /\ (forall (DB : Type) (s : jobService DB) (sched : schedule)
          (stream : ServerStream AsyncSubmitRequest.t) (db : DB),
      (forall id res e,
          In (JobRepo_FindById id res (Some e))
            (trace_of (AsyncSubmit s sched stream db)) ->
          outcome_of (AsyncSubmit s sched stream db) = Returned (Some e)
          /\ exists arg tasks tx1 tasks2,
               trace_of (AsyncSubmit s sched stream db)
               = [TxBegin; JobRepo_Save arg None; TaskRepo_BatchSave tasks None;
                  TxCommit; JobRepo_FindById id res (Some e)]
               /\ TaskRepository.BatchSave (taskRepo s) tx1 tasks
                  = (db_of (AsyncSubmit s sched stream db), tasks2, None))
      /\ (forall id,
          In (JobRepo_FindById id None None) (trace_of (AsyncSubmit s sched stream db)) ->
          outcome_of (AsyncSubmit s sched stream db)
          = Returned (Some (ToGrpcErr errCode.ErrJobNotFound))
          /\ exists arg tasks tx1 tasks2,
               trace_of (AsyncSubmit s sched stream db)
               = [TxBegin; JobRepo_Save arg None; TaskRepo_BatchSave tasks None;
                  TxCommit; JobRepo_FindById id None None]
               /\ TaskRepository.BatchSave (taskRepo s) tx1 tasks
                  = (db_of (AsyncSubmit s sched stream db), tasks2, None))
      /\ (forall id found e,
          In (TaskRepo_List id found (Some e))
            (trace_of (AsyncSubmit s sched stream db)) ->
          outcome_of (AsyncSubmit s sched stream db) = Returned (Some e)
          /\ exists arg tasks id' j2 tx1 tasks2,
               trace_of (AsyncSubmit s sched stream db)
               = [TxBegin; JobRepo_Save arg None; TaskRepo_BatchSave tasks None;
                  TxCommit; JobRepo_FindById id' (Some j2) None;
                  TaskRepo_List id found (Some e)]
               /\ TaskRepository.BatchSave (taskRepo s) tx1 tasks
                  = (db_of (AsyncSubmit s sched stream db), tasks2, None))).
Proof.
  split; intros; unfold_service; run;
    (split; [intros id res e' H | split; [intros id H | intros id found e' H]]);
    close_run H.
Qed.

(** The lookup fails on the in-memory storage after the commit. *)
Lemma reload_failure_after_commit_witness :
  outcome_of (SyncSubmit (Mem.service None) sample_sync_stream broken_FindById)
  = Returned (Some (ExternalErr "connection lost")).
Proof.
  apply (proj1 (proj1 reload_failure_after_commit Mem.DB (Mem.service None)
                  sample_sync_stream broken_FindById) 1 None
           (ExternalErr "connection lost")).
  simpl. do 4 right. left. reflexivity.
Defined.

(** X13. A submission, synchronous or asynchronous, begins at most one
    transaction, calls [Save] at most once, [BatchSave] at most once and the
    engine at most once, and sends at most one response: nothing is retried. *)
Theorem submission_calls_at_most_once :
  (forall (DB : Type) (s : jobService DB)
          (stream : ServerStream SyncSubmitRequest.t) (db : DB),
      at_most_once_each (trace_of (SyncSubmit s stream db)))
  /\ (forall (DB : Type) (s : jobService DB) (sched : schedule)
          (stream : ServerStream AsyncSubmitRequest.t) (db : DB),
      at_most_once_each (trace_of (AsyncSubmit s sched stream db))).
Proof.
  split; intros; unfold at_most_once_each, count_calls; unfold_service; run;
    repeat split; simpl; lia.
Qed.

(** X14. The engine is only ever started on a committed and reloaded job: in
    every submission, a call of [StartJob] (and, in [AsyncSubmit], the [go]
    statement that precedes it) comes after a committed transaction and a
    reload that found the job, and is given the aggregate that reload read. *)
Theorem engine_started_only_after_commit :
  (forall (DB : Type) (s : jobService DB)
          (stream : ServerStream SyncSubmitRequest.t) (db : DB) arg after err,
      In (Engine_StartJob arg after err) (trace_of (SyncSubmit s stream db)) ->
      started_on_committed_job arg (trace_of (SyncSubmit s stream db)))
  /\ (forall (DB : Type) (s : jobService DB) (sched : schedule)
          (stream : ServerStream AsyncSubmitRequest.t) (db : DB) arg,
      In (Go_StartJob arg) (trace_of (AsyncSubmit s sched stream db)) ->
      started_on_committed_job arg (trace_of (AsyncSubmit s sched stream db)))
  /\ (forall (DB : Type) (s : jobService DB) (sched : schedule)
          (stream : ServerStream AsyncSubmitRequest.t) (db : DB) arg after err,
      In (Engine_StartJob arg after err) (trace_of (AsyncSubmit s sched stream db)) ->
      started_on_committed_job arg (trace_of (AsyncSubmit s sched stream db))
      /\ In (Go_StartJob arg) (trace_of (AsyncSubmit s sched stream db))).
Proof.
  split; [|split]; intros *; unfold started_on_committed_job;
    unfold_service; run; intros H;
    in_cases H; inversion H; subst; clear H;
    repeat split; repeat eexists; simpl; auto 10.
Qed.

(** The engine call of the synchronous submission on the in-memory storage. *)
Lemma engine_started_only_after_commit_witness :
  started_on_committed_job
    (JobInfo.mk (Some (Job.set_Id 1 Mem.job1))
       (Mem.number 1 (map (Task.set_JobId 1) Mem.tasks_ab)))
    (trace_of (SyncSubmit (Mem.service None) sample_sync_stream Mem.empty)).
Proof.
  eapply (proj1 engine_started_only_after_commit Mem.DB (Mem.service None)
            sample_sync_stream Mem.empty).
  simpl. do 6 right. left. reflexivity.
Defined.

(** ** Panics of a submission *)

Lemma receiveSyncLoop_keeps_job s :
  forall i fp sh j,
    JobInfo.Job i = Some j ->
    exists i' err j',
      receiveSyncLoop s i fp sh = Returned (i', err) /\ JobInfo.Job i' = Some j'.
Proof.
  induction s as [|[r|e] s IH]; intros i fp sh j Hj; simpl.
  - unfold after_loop. rewrite Hj. simpl.
    eexists _, _, _. split; reflexivity.
  - destruct (SyncSubmitRequest.PluginSet r) as [|p ps];
      [eexists _, _, _; split; [reflexivity|exact Hj]|].
    rewrite Hj. simpl. rewrite Hj. simpl.
    eapply IH. unfold JobInfo.AppendSafeTask. simpl. exact Hj.
  - destruct e; try (unfold after_loop; rewrite Hj; simpl);
      eexists _, _, _; (split; [reflexivity|]); first [exact Hj|reflexivity].
Qed.

Lemma receiveAsyncLoop_keeps_job s :
  forall i fp sh j,
    JobInfo.Job i = Some j ->
    exists i' err j',
      receiveAsyncLoop s i fp sh = Returned (i', err) /\ JobInfo.Job i' = Some j'.
Proof.
  induction s as [|[r|e] s IH]; intros i fp sh j Hj; simpl.
  - unfold after_loop. rewrite Hj. simpl.
    eexists _, _, _. split; reflexivity.
  - destruct (AsyncSubmitRequest.PluginSet r) as [|p ps];
      [eexists _, _, _; split; [reflexivity|exact Hj]|].
    rewrite Hj. simpl. rewrite Hj. simpl.
    eapply IH. unfold JobInfo.AppendSafeTask. simpl. exact Hj.
  - destruct e; try (unfold after_loop; rewrite Hj; simpl);
      eexists _, _, _; (split; [reflexivity|]); first [exact Hj|reflexivity].
Qed.

Lemma receiveSyncJobStream_shape s :
  (ends_before_first_chunk s /\ receiveSyncJobStream s = Panicked NilDereference)
  \/ (~ ends_before_first_chunk s
      /\ exists i err,
           receiveSyncJobStream s = Returned (i, err)
           /\ (err = None -> exists j, JobInfo.Job i = Some j)).
Proof.
  unfold receiveSyncJobStream, ends_before_first_chunk.
  destruct s as [|[r|e] s]; simpl.
  - left. auto.
  - right. split; [intros [H|H]; discriminate|].
    destruct (SyncSubmitRequest.PluginSet r) as [|p ps].
    + eexists _, _. split; [reflexivity|discriminate].
    + simpl.
      destruct (receiveSyncLoop_keeps_job s
                  (JobInfo.AppendSafeTask
                     (JobInfo.set_Job (Some (sync_Job r)) JobInfo.empty)
                     (new_Task 0 (Job.Name (sync_Job r)) (SyncSubmitRequest.Data r) p))
                  p (Int32.incr 0) (sync_Job r) eq_refl)
        as (i' & err & j' & Hrun & Hj').
      exists i', err. split; [exact Hrun|]. intros _. eauto.
  - destruct e.
    + left. auto.
    + right. split; [intros [H|H]; discriminate|].
      eexists _, _. split; [reflexivity|discriminate].
    + right. split; [intros [H|H]; discriminate|].
      eexists _, _. split; [reflexivity|discriminate].
Qed.

Lemma receiveAsyncJobStream_shape s :
  (ends_before_first_chunk s /\ receiveAsyncJobStream s = Panicked NilDereference)
  \/ (~ ends_before_first_chunk s
      /\ exists i err,
           receiveAsyncJobStream s = Returned (i, err)
           /\ (err = None -> exists j, JobInfo.Job i = Some j)).
Proof.
  unfold receiveAsyncJobStream, ends_before_first_chunk.
  destruct s as [|[r|e] s]; simpl.
  - left. auto.
  - right. split; [intros [H|H]; discriminate|].
    destruct (AsyncSubmitRequest.PluginSet r) as [|p ps].
    + eexists _, _. split; [reflexivity|discriminate].
    + simpl.
      destruct (receiveAsyncLoop_keeps_job s
                  (JobInfo.AppendSafeTask
                     (JobInfo.set_Job (Some (async_Job r)) JobInfo.empty)
                     (new_Task 0 (Job.Name (async_Job r)) (AsyncSubmitRequest.Data r) p))
                  p (Int32.incr 0) (async_Job r) eq_refl)
        as (i' & err & j' & Hrun & Hj').
      exists i', err. split; [exact Hrun|]. intros _. eauto.
  - destruct e.
    + left. auto.
    + right. split; [intros [H|H]; discriminate|].
      eexists _, _. split; [reflexivity|discriminate].
    + right. split; [intros [H|H]; discriminate|].
      eexists _, _. split; [reflexivity|discriminate].
Qed.

Ltac panics_leaf Hnot :=
  let q := fresh "q" in
  let Hq := fresh "Hq" in
  let H := fresh "H" in
  let a0 := fresh "arg" in
  let a1 := fresh "after" in
  let a2 := fresh "err" in
  let Hnone := fresh "Hnone" in
  split; [split|split];
  [ intros [q Hq];
    first [ discriminate Hq
          | right; eexists _, _, _; split; [find_in | eassumption] ]
  | intros [H|(a0 & a1 & a2 & H & Hnone)];
    [ contradiction (Hnot H)
    | first [ eexists; reflexivity
            | in_cases H; inversion H; subst; congruence ] ]
  | intros q Hq; first [discriminate Hq | inversion Hq; reflexivity]
  | intros H; contradiction (Hnot H) ].

(** X15. A submission, synchronous or asynchronous, panics in exactly two
    situations: the stream ends before its first chunk, and then nothing has
    been called and the storage is untouched; or the engine was called and
    left the aggregate without a job. The panic is always a nil dereference;
    the transaction and the reload never panic inside a submission. *)
Theorem submission_panics_only :
  (forall (DB : Type) (s : jobService DB)
          (stream : ServerStream SyncSubmitRequest.t) (db : DB),
      ((exists p, outcome_of (SyncSubmit s stream db) = Panicked p)
       <-> ends_before_first_chunk (inbox stream)
           \/ exists arg after err,
                In (Engine_StartJob arg after err) (trace_of (SyncSubmit s stream db))
                /\ JobInfo.Job after = None)
      /\ (forall p, outcome_of (SyncSubmit s stream db) = Panicked p ->
                    p = NilDereference)
      /\ (ends_before_first_chunk (inbox stream) ->
          SyncSubmit s stream db = (db, [], Panicked NilDereference)))
  /\ (forall (DB : Type) (s : jobService DB) (sched : schedule)
          (stream : ServerStream AsyncSubmitRequest.t) (db : DB),
      ((exists p, outcome_of (AsyncSubmit s sched stream db) = Panicked p)
       <-> ends_before_first_chunk (inbox stream)
           \/ exists arg after err,
                In (Engine_StartJob arg after err)
                  (trace_of (AsyncSubmit s sched stream db))
                /\ JobInfo.Job after = None)
      /\ (forall p, outcome_of (AsyncSubmit s sched stream db) = Panicked p ->
                    p = NilDereference)
      /\ (ends_before_first_chunk (inbox stream) ->
          AsyncSubmit s sched stream db = (db, [], Panicked NilDereference))).
Proof.
  split; intros.
  - destruct (receiveSyncJobStream_shape (inbox stream))
      as [[Hend Hp]|[Hnot (i & err & Hr & Hj)]]; unfold_service; rewrite ?Hp, ?Hr; simpl.
    + split; [split|split]; auto.
      * intros _. eexists. reflexivity.
      * intros p H. inversion H. reflexivity.
    + destruct err as [e|]; simpl.
      * panics_leaf Hnot.
      * destruct (Hj eq_refl) as [j Hj']. rewrite Hj'. simpl.
        unfold deref; run; panics_leaf Hnot.
  - destruct (receiveAsyncJobStream_shape (inbox stream))
      as [[Hend Hp]|[Hnot (i & err & Hr & Hj)]]; unfold_service; rewrite ?Hp, ?Hr; simpl.
    + split; [split|split]; auto.
      * intros _. eexists. reflexivity.
      * intros p H. inversion H. reflexivity.
    + destruct err as [e|]; simpl.
      * panics_leaf Hnot.
      * destruct (Hj eq_refl) as [j Hj']. rewrite Hj'. simpl.
        unfold deref; run; panics_leaf Hnot.
Qed.

(** A stream whose first [Recv] returns [io.EOF]. *)
Lemma submission_panics_only_witness :
  SyncSubmit (Mem.service None)
    (mk_ServerStream _ [inr io_EOF; inl (Mem.sync_chunk "a")] None) Mem.empty
  = (Mem.empty, [], Panicked NilDereference).
Proof.
  apply (proj2 (proj2 (proj1 submission_panics_only Mem.DB (Mem.service None)
                         (mk_ServerStream _ [inr io_EOF; inl (Mem.sync_chunk "a")] None)
                         Mem.empty))).
  right. reflexivity.
Defined.

(** ** Where errors come from and where they go *)

Ltac origin_leaf :=
  let H := fresh "H" in
  intros H; first
    [ discriminate H
    | inversion H; subst; clear H; first
        [ left; split; [eexists; reflexivity | reflexivity]
        | right; left; split; [reflexivity | eexists; find_in]
        | right; right; find_in
        | right; right; simpl; tauto ] ].

Ltac each_event Hin Herr :=
  simpl in Hin;
  repeat (destruct Hin as [Hin|Hin]; [subst; simpl in Herr; try discriminate Herr|]);
  try contradiction.

Ltac kept_leaf :=
  let ev := fresh "ev" in
  let e' := fresh "e'" in
  let Hin := fresh "Hin" in
  let Herr := fresh "Herr" in
  let Hne := fresh "Hne" in
  first
    [ intros ev e' Hin Hne Herr; each_event Hin Herr; try discriminate Hne;
      congruence
    | intros ev e' Hin Herr; each_event Hin Herr;
      first [ left; congruence | right; split; reflexivity ] ].

(** X16. The only errors a submission makes itself are the two conditions
    plugin-set-empty (in the assembly) and job-not-found (after a lookup that
    found nothing): any error it returns is the one the assembly returned
    before any call, or job-not-found after such a lookup, or the error a call
    in its trace returned (for [AsyncSubmit]: a call other than the engine's).
    And no error is dropped, but for the engine's in [AsyncSubmit]: when a
    call returns an error the submission returns that error, except that
    [SyncSubmit] panics when a failing engine left the aggregate without a
    job. *)
Theorem errors_neither_invented_nor_dropped :
  (forall (DB : Type) (s : jobService DB)
          (stream : ServerStream SyncSubmitRequest.t) (db : DB),
      (forall e,
          outcome_of (SyncSubmit s stream db) = Returned (Some e) ->
          error_origin (receiveSyncJobStream (inbox stream))
            (trace_of (SyncSubmit s stream db)) e)
      /\ (forall ev e,
          In ev (trace_of (SyncSubmit s stream db)) ->
          error_of ev = Some e ->
          outcome_of (SyncSubmit s stream db) = Returned (Some e)
          \/ (is_engine ev = true
              /\ outcome_of (SyncSubmit s stream db) = Panicked NilDereference)))
  /\ (forall (DB : Type) (s : jobService DB) (sched : schedule)
          (stream : ServerStream AsyncSubmitRequest.t) (db : DB),
      (forall e,
          outcome_of (AsyncSubmit s sched stream db) = Returned (Some e) ->
          error_origin (receiveAsyncJobStream (inbox stream))
            (filter (fun ev => negb (is_engine ev))
               (trace_of (AsyncSubmit s sched stream db))) e)
      /\ (forall ev e,
          In ev (trace_of (AsyncSubmit s sched stream db)) ->
          is_engine ev = false ->
          error_of ev = Some e ->
          outcome_of (AsyncSubmit s sched stream db) = Returned (Some e))).
Proof.
  split; intros; unfold error_origin; unfold_service; unfold deref; run;
    (split; [intros e0; origin_leaf | kept_leaf]).
Qed.

(** The error of a failing batch save is the error of the submission. *)
Lemma errors_neither_invented_nor_dropped_witness :
  error_origin (receiveSyncJobStream (inbox sample_sync_stream))
    (trace_of (SyncSubmit (Mem.service None) sample_sync_stream Mem.broken_BatchSave))
    (ExternalErr "disk full").
Proof.
  apply (proj1 (proj1 errors_neither_invented_nor_dropped Mem.DB (Mem.service None)
                  sample_sync_stream Mem.broken_BatchSave)).
  reflexivity.
Defined.

(** ** Submissions that do not commit *)

Ltac uncommitted_leaf :=
  let H := fresh "H" in
  let H' := fresh "H" in
  split;
  [ intros H;
    first [ exfalso; apply H; find_in
          | repeat split; reflexivity ]
  | intros H H'; first [solve [in_cases H] | solve [in_cases H']] ].

(** X17. A submission, synchronous or asynchronous, whose transaction did not
    commit (it failed before, rolled back, or panicked) leaves the storage as
    it was, starts no goroutine, calls the engine not at all and sends no
    response. A submission that committed never rolls back. *)
Theorem uncommitted_submission_changes_nothing :
  (forall (DB : Type) (s : jobService DB)
          (stream : ServerStream SyncSubmitRequest.t) (db : DB),
      (~ In TxCommit (trace_of (SyncSubmit s stream db)) ->
       db_of (SyncSubmit s stream db) = db
       /\ nothing_started (trace_of (SyncSubmit s stream db)))
      /\ (In TxCommit (trace_of (SyncSubmit s stream db)) ->
          ~ In TxRollback (trace_of (SyncSubmit s stream db))))
  /\ (forall (DB : Type) (s : jobService DB) (sched : schedule)
          (stream : ServerStream AsyncSubmitRequest.t) (db : DB),
      (~ In TxCommit (trace_of (AsyncSubmit s sched stream db)) ->
       db_of (AsyncSubmit s sched stream db) = db
       /\ nothing_started (trace_of (AsyncSubmit s sched stream db)))
      /\ (In TxCommit (trace_of (AsyncSubmit s sched stream db)) ->
          ~ In TxRollback (trace_of (AsyncSubmit s sched stream db)))).
Proof.
  split; intros; unfold nothing_started, count_calls; unfold_service; unfold deref;
    run; uncommitted_leaf.
Qed.

(** The batch save fails: the storage is as before and nothing is started. *)
Lemma uncommitted_submission_changes_nothing_witness :
  db_of (SyncSubmit (Mem.service None) sample_sync_stream Mem.broken_BatchSave)
  = Mem.broken_BatchSave
  /\ nothing_started
       (trace_of (SyncSubmit (Mem.service None) sample_sync_stream
                    Mem.broken_BatchSave)).
Proof.
  apply (proj1 (proj1 uncommitted_submission_changes_nothing Mem.DB
                  (Mem.service None) sample_sync_stream Mem.broken_BatchSave)).
  simpl. intros H. in_cases H.
Defined.
